(** * Report extraction and aggregation pipeline: a shallow embedding

    The development follows [utils.py] (sample discovery, report loading,
    the two extractors) and [main.py] (the per-sample loop, the aggregator,
    the relative abundance calculator and the top-level driver).

    Conventions.
    - A parsed JSON document is a [pyval]; a Python [dict] keeps its items
      in insertion order with distinct keys.
    - A Python exception raised inside a [try] block is a [Raise] in the
      [result] type; every [except Exception] of the source is a [match]
      on it.
    - Logging, printing and the artifacts handed to the reporting sink are
      events of a trace, in program order.  [Log lv m] records the call
      [logger.<lv>(m)]; which levels reach the log file is decided by the
      threshold given to [logging.basicConfig] ([LOG_LEVEL] below).
    - Floats are modelled by the rational they denote; binary64 rounding
      error, NaN and infinities are not represented.
    - Library functions whose algorithm is not part of the repository
      ([natsort.natsorted], [DataFrame.sort_values]) are Section variables
      constrained by what their documentation promises. *)

From Stdlib Require Import Qround ZArith QArith List String Ascii Bool Lia.
From Stdlib Require Import Permutation Sorted.
From stdpp Require Import base gmap strings list.

Local Open Scope string_scope.
Local Open Scope list_scope.
Local Open Scope Z_scope.

(** ** Python values and exceptions *)

#[local] Set Warnings "-register-all".

Inductive pyval : Type :=
| VNone
| VBool (b : bool)
| VInt (n : Z)
| VFloat (q : Q)
| VStr (s : string)
| VList (l : list pyval)
| VDict (items : list (string * pyval)).

Inductive exn : Type :=
| AttributeError | TypeError | IndexError | KeyError | ValueError | OSError.

Inductive result (A : Type) : Type :=
| Ok (a : A)
| Raise (e : exn).
Arguments Ok {A} a.
Arguments Raise {A} e.

Definition bind {A B : Type} (r : result A) (k : A -> result B) : result B :=
  match r with
  | Ok a => k a
  | Raise e => Raise e
  end.

Notation "x <- r ;; k" := (bind r (fun x => k))
  (at level 100, r at next level, right associativity, only parsing).

(** A [for] loop that appends one value per element and stops at the first
    exception. *)
Fixpoint for_each {A B : Type} (f : A -> result B) (l : list A) : result (list B) :=
  match l with
  | [] => Ok []
  | x :: l' => y <- f x ;; ys <- for_each f l' ;; Ok (y :: ys)
  end.

(** [bool(v)] *)
Definition truthy (v : pyval) : bool :=
  match v with
  | VNone => false
  | VBool b => b
  | VInt n => negb (n =? 0)
  | VFloat q => negb (Qeq_bool q 0)
  | VStr s => negb (String.eqb s "")
  | VList l => match l with [] => false | _ => true end
  | VDict items => match items with [] => false | _ => true end
  end.

Fixpoint assoc (key : string) (items : list (string * pyval)) : option pyval :=
  match items with
  | [] => None
  | (k, v) :: rest => if String.eqb k key then Some v else assoc key rest
  end.

(** [obj.get(key, dflt)]: only a dict has the method. *)
Definition py_get (obj : pyval) (key : string) (dflt : pyval) : result pyval :=
  match obj with
  | VDict items => Ok (default dflt (assoc key items))
  | _ => Raise AttributeError
  end.

(** [v[0]] *)
Definition py_getitem0 (v : pyval) : result pyval :=
  match v with
  | VList [] => Raise IndexError
  | VList (x :: _) => Ok x
  | VStr EmptyString => Raise IndexError
  | VStr (String c _) => Ok (VStr (String c EmptyString))
  | VDict _ => Raise KeyError
  | _ => Raise TypeError
  end.

(** [v > k] for an integer literal [k] *)
Definition py_gt (v : pyval) (k : Z) : result pyval :=
  match v with
  | VInt n => Ok (VBool (k <? n))
  | VBool b => Ok (VBool (k <? Z.b2z b))
  | VFloat q => Ok (VBool (negb (Qle_bool q (inject_Z k))))
  | _ => Raise TypeError
  end.

(** Nearest integer, halves to the even neighbour. *)
Definition round_half_even (q : Q) : Z :=
  let f := Qfloor q in
  match Qcompare (q - inject_Z f) (1 # 2) with
  | Lt => f
  | Gt => f + 1
  | Eq => if Z.even f then f else f + 1
  end.

Definition round2 (q : Q) : Q :=
  Qred (inject_Z (round_half_even (q * 100)) / 100).

(** [round(v, 2)] *)
Definition py_round2 (v : pyval) : result pyval :=
  match v with
  | VInt n => Ok (VInt n)
  | VBool b => Ok (VInt (Z.b2z b))
  | VFloat q => Ok (VFloat (round2 q))
  | _ => Raise TypeError
  end.

Fixpoint chars (s : string) : list pyval :=
  match s with
  | EmptyString => []
  | String c s' => VStr (String c EmptyString) :: chars s'
  end.

(** The elements a [for] statement visits. *)
Definition py_iter (v : pyval) : result (list pyval) :=
  match v with
  | VList l => Ok l
  | VDict items => Ok (map (fun kv => VStr (fst kv)) items)
  | VStr s => Ok (chars s)
  | _ => Raise TypeError
  end.

(** [v == True], as the element-wise comparison of a column does it. *)
Definition py_eq_True (v : pyval) : bool :=
  match v with
  | VBool b => b
  | VInt n => n =? 1
  | VFloat q => Qeq_bool q 1
  | _ => false
  end.

(** ** Logging and the event trace *)

Inductive level : Type := INFO | WARNING | ERROR | CRITICAL.

Definition levelno (lv : level) : Z :=
  match lv with
  | INFO => 20
  | WARNING => 30
  | ERROR => 40
  | CRITICAL => 50
  end.

(** [logging.basicConfig(..., level=logging.ERROR, ...)] *)
Definition LOG_LEVEL : level := ERROR.

(** One constructor per logging call of the source; the text of a caught
    exception is kept as the exception itself. *)
Inductive log_msg : Type :=
| ReportNotFound (sample_i report_path : string)
| ReportDecodeFailed (sample_i : string)
| ReportReadFailed (sample_i : string)
| NoMicroorganismData (sample_i : string)
| MicroorganismError (sample_i : string) (e : exn)
| NoAmrData (sample_i : string)
| AmrError (sample_i : string) (e : exn)
| DirsReady
| SetupFailed (e : exn)
| NoSampleDirs
| SampleCritical (sample_i : string) (e : exn)
| NoDataProcessed
| SkippingRelativeAbundance (sample_name : string)
| ProcessingComplete
| FatalError (e : exn).

(** ** Rows of the two tables

    A table ([pd.DataFrame(data_rows)]) is the list of its rows.  The type
    parameter of a microorganism row is the type of its [alignedReadCount]
    column: [pyval] as extracted, [Z] once the column holds integers only. *)

Module MO.
Record row (C : Type) : Type := mk {
  Sample : string;
  Name : pyval;
  alignedReadCount : C;
  ani : pyval;
  rpkm : pyval;
  class : pyval;
  phenotypicGroup : pyval;
  predictedPresent : pyval;
  Presence : pyval
}.
Arguments mk {C}.
Arguments Sample {C}.
Arguments Name {C}.
Arguments alignedReadCount {C}.
Arguments ani {C}.
Arguments rpkm {C}.
Arguments class {C}.
Arguments phenotypicGroup {C}.
Arguments predictedPresent {C}.
Arguments Presence {C}.
End MO.

Module AMR.
Record row : Type := mk {
  SampleID : string;
  GeneName : pyval;
  Class : pyval;
  geneFamily : pyval;
  Coverage : pyval;
  medianDepth : pyval;
  associatedMicroorganisms : pyval;
  predictedPresent : pyval
}.
End AMR.

(** One row of a per-sample relative abundance chart. *)
Record ra_entry : Type := {
  ra_Sample : string;
  ra_Name : pyval;
  ra_alignedReadCount : Z;
  relativeAbundance : Q
}.

Inductive event : Type :=
| Log (lv : level) (m : log_msg)
| ToExcel_mo (filename : string) (df : list (MO.row pyval))
| ToExcel_amr (filename : string) (df : list AMR.row)
| SaveCounts (filename : string)
| SaveBar (filename : string) (sample_name : string) (bars : list ra_entry)
| Move (path target_dir : string)
| Print (text : string).

Definition logged (lv : level) (m : log_msg) (tr : list event) : Prop :=
  In (Log lv m) tr.

(** What [basicConfig] lets through to the log file. *)
Definition reaches_log_file (lv : level) : bool := levelno LOG_LEVEL <=? levelno lv.

(** ** utils.py *)

(** What [open] followed by [json.load] does at a path. *)
Inductive read_outcome : Type :=
| FileNotFound
| JSONDecodeError
| OtherReadError
| Loaded (doc : pyval).

Definition filesystem : Type := string -> read_outcome.

Fixpoint string_drop (n : nat) (s : string) : string :=
  match n, s with
  | O, _ => s
  | S n', String _ s' => string_drop n' s'
  | S _, EmptyString => EmptyString
  end.

Fixpoint endswith_sep (s : string) : bool :=
  match s with
  | EmptyString => false
  | String c EmptyString => Ascii.eqb c "/"
  | String _ s' => endswith_sep s'
  end.

(** [os.path.join(a, b)] on a POSIX system *)
Definition os_path_join (a b : string) : string :=
  if String.prefix "/" b then b
  else if String.eqb a "" || endswith_sep a then a +:+ b
  else a +:+ "/" +:+ b.

(** Longest common leading substring of two strings. *)
Fixpoint common_prefix2 (s t : string) : string :=
  match s, t with
  | String c s', String d t' =>
      if Ascii.eqb c d then String c (common_prefix2 s' t') else EmptyString
  | _, _ => EmptyString
  end.

(** [os.path.commonprefix]: the longest string that is a character-wise
    prefix of every element; [''] for the empty list. *)
Definition commonprefix (m : list string) : string :=
  match m with
  | [] => ""
  | s :: rest => fold_left common_prefix2 rest s
  end.

Section Discovery.
Variable natsorted : list string -> list string.

(** [listing] is [os.listdir(".")], each name with [os.path.isdir] of it. *)
Definition sample_dirs (listing : list (string * bool)) : list string :=
  map fst (List.filter (fun f => snd f && negb (String.prefix "Results" (fst f))) listing).

Definition extract_sample_info (listing : list (string * bool))
  : list string * string :=
  let file_names := sample_dirs listing in
  let file_names_ord := natsorted file_names in
  let common_prefix := commonprefix file_names_ord in
  (map (fun file => string_drop (String.length common_prefix) file) file_names_ord,
   common_prefix).
End Discovery.

Definition sample_folder (sample_i common_prefix : string) : string :=
  common_prefix +:+ sample_i.

Definition report_name (sample_i : string) : string :=
  "sample" +:+ sample_i +:+ "." +:+ sample_i +:+ ".report.json".

Definition report_path (sample_i common_prefix : string) : string :=
  os_path_join (sample_folder sample_i common_prefix) (report_name sample_i).

(** [VNone] is Python's [None]: a failed load and a document that is the
    JSON literal [null] look the same to the callers. *)
Definition load_json_report (fs : filesystem) (sample_i common_prefix : string)
  : pyval * list event :=
  match fs (report_path sample_i common_prefix) with
  | Loaded doc => (doc, [])
  | FileNotFound =>
      (VNone, [Log ERROR (ReportNotFound sample_i (report_path sample_i common_prefix))])
  | JSONDecodeError => (VNone, [Log ERROR (ReportDecodeFailed sample_i)])
  | OtherReadError => (VNone, [Log ERROR (ReportReadFailed sample_i)])
  end.

Definition sample_label (sample_i : string) : string := "sample" +:+ sample_i.

(** [item.get('explifyInterpretation', {}).get('predictedPresent', False)] *)
Definition item_predictedPresent (item : pyval) : result pyval :=
  ei <- py_get item "explifyInterpretation" (VDict []) ;;
  py_get ei "predictedPresent" (VBool false).

(** The body of the loop of [process_microorganisms], in evaluation order. *)
Definition mo_row (sample_i : string) (item : pyval) : result (MO.row pyval) :=
  ani <- py_get item "ani" (VInt 0) ;;
  rpkm <- py_get item "rpkm" (VInt 0) ;;
  aligned_count <- py_get item "alignedReadCount" (VInt 0) ;;
  predicted_present <- item_predictedPresent item ;;
  name <- py_get item "name" VNone ;;
  ani2 <- py_round2 ani ;;
  rpkm2 <- py_round2 rpkm ;;
  cls <- py_get item "class" VNone ;;
  group <- py_get item "phenotypicGroup" VNone ;;
  presence <- (if truthy predicted_present then Ok predicted_present
               else py_gt aligned_count 5) ;;
  Ok (MO.mk (sample_label sample_i) name aligned_count ani2 rpkm2 cls group
            predicted_present presence).

(** [report.get('targetReport', {}).get(key, [])] *)
Definition target_list (report : pyval) (key : string) : result pyval :=
  tr <- py_get report "targetReport" (VDict []) ;;
  py_get tr key (VList []).

Definition process_microorganisms (fs : filesystem) (sample_i common_prefix : string)
  : option (list (MO.row pyval)) * list event :=
  let '(report, tr) := load_json_report fs sample_i common_prefix in
  match report with
  | VNone => (None, tr)
  | _ =>
      match target_list report "microorganisms" with
      | Raise e => (None, tr ++ [Log ERROR (MicroorganismError sample_i e)])
      | Ok trmo =>
          if negb (truthy trmo)
          then (None, tr ++ [Log WARNING (NoMicroorganismData sample_i)])
          else
            match (items <- py_iter trmo ;; for_each (mo_row sample_i) items) with
            | Ok data_rows => (Some data_rows, tr)
            | Raise e => (None, tr ++ [Log ERROR (MicroorganismError sample_i e)])
            end
      end
  end.

(** [item.get('associatedMicroorganisms', {}).get('all', [None])[0]] *)
Definition associated_mo (item : pyval) : result pyval :=
  am <- py_get item "associatedMicroorganisms" (VDict []) ;;
  all <- py_get am "all" (VList [VNone]) ;;
  py_getitem0 all.

(** The body of the loop of [process_amr_markers], in evaluation order. *)
Definition amr_row (sample_i : string) (item : pyval) : result AMR.row :=
  coverage <- py_get item "coverage" (VInt 0) ;;
  associated <- associated_mo item ;;
  name <- py_get item "name" VNone ;;
  cls <- py_get item "class" VNone ;;
  family <- py_get item "geneFamily" VNone ;;
  coverage2 <- py_round2 coverage ;;
  depth <- py_get item "medianDepth" VNone ;;
  predicted_present <- item_predictedPresent item ;;
  Ok (AMR.mk (sample_label sample_i) name cls family coverage2 depth associated
             predicted_present).

Definition process_amr_markers (fs : filesystem) (sample_i common_prefix : string)
  : option (list AMR.row) * list event :=
  let '(report, tr) := load_json_report fs sample_i common_prefix in
  match report with
  | VNone => (None, tr)
  | _ =>
      match target_list report "amrMarkers" with
      | Raise e => (None, tr ++ [Log ERROR (AmrError sample_i e)])
      | Ok tramr =>
          if negb (truthy tramr)
          then (None, tr ++ [Log WARNING (NoAmrData sample_i)])
          else
            match (items <- py_iter tramr ;; for_each (amr_row sample_i) items) with
            | Ok data_rows => (Some data_rows, tr)
            | Raise e => (None, tr ++ [Log ERROR (AmrError sample_i e)])
            end
      end
  end.

(** ** main.py *)

Definition LOG_FILE : string := "processing_errors.log".
Definition RESULTS_DIR : string := "Results".
Definition TABLES_DIR : string := os_path_join "Results" "Tables".
Definition PLOTS_DIR : string := os_path_join "Results" "Plots".

Definition success_message : string :=
  "✅ Success! Results saved to '" +:+ RESULTS_DIR +:+ "'. Errors logged to '"
    +:+ LOG_FILE +:+ "'.".

Definition fatal_message : string :=
  "❌ A fatal error occurred. Check '" +:+ LOG_FILE +:+ "' for details.".

(** *** The per-sample loop *)

Definition append_table {A : Type} (tables : list (list A)) (t : option (list A))
  : list (list A) :=
  match t with
  | Some df => tables ++ [df]
  | None => tables
  end.

(** One iteration of the loop of [main].  Both extractors return [None]
    instead of raising, so the handler of the loop body has nothing to
    catch. *)
Definition process_sample (fs : filesystem) (common_prefix : string)
    (acc : list (list (MO.row pyval)) * list (list AMR.row) * list event)
    (sample_i : string)
  : list (list (MO.row pyval)) * list (list AMR.row) * list event :=
  let '(all_mo_tables, all_amr_tables, tr) := acc in
  let '(mo_table, tr_mo) := process_microorganisms fs sample_i common_prefix in
  let '(amr_table, tr_amr) := process_amr_markers fs sample_i common_prefix in
  (append_table all_mo_tables mo_table, append_table all_amr_tables amr_table,
   tr ++ tr_mo ++ tr_amr).

Definition process_samples (fs : filesystem) (common_prefix : string)
    (sample_names : list string)
  : list (list (MO.row pyval)) * list (list AMR.row) * list event :=
  fold_left (process_sample fs common_prefix) sample_names ([], [], []).

(** *** Aggregator *)

(** [pd.concat(tables, ignore_index=True)] refuses an empty list. *)
Definition pd_concat {A : Type} (tables : list (list A)) : result (list A) :=
  match tables with
  | [] => Raise ValueError
  | _ => Ok (concat tables)
  end.

(** The arithmetic of the aggregator is modelled for an integer
    [alignedReadCount] column, the type the data model gives the field. *)
Definition int_count (r : MO.row pyval) : option (MO.row Z) :=
  match MO.alignedReadCount r with
  | VInt n =>
      Some (MO.mk (MO.Sample r) (MO.Name r) n (MO.ani r) (MO.rpkm r) (MO.class r)
                  (MO.phenotypicGroup r) (MO.predictedPresent r) (MO.Presence r))
  | _ => None
  end.

Fixpoint int_frame (df : list (MO.row pyval)) : option (list (MO.row Z)) :=
  match df with
  | [] => Some []
  | r :: df' =>
      match int_count r, int_frame df' with
      | Some r', Some rest => Some (r' :: rest)
      | _, _ => None
      end
  end.

(** [df.groupby('Sample')['alignedReadCount'].sum().to_dict()] *)
Definition total_reads_dict (df : list (MO.row Z)) : gmap string Z :=
  foldr (fun r m => <[MO.Sample r := default 0 (m !! MO.Sample r) + MO.alignedReadCount r]> m)
        ∅ df.

(** *** Relative abundance calculator *)

(** [Series.unique()]: the distinct values in order of first appearance. *)
Fixpoint unique_from (seen : list string) (l : list string) : list string :=
  match l with
  | [] => []
  | x :: l' =>
      if existsb (String.eqb x) seen then unique_from seen l'
      else x :: unique_from (x :: seen) l'
  end.

Definition unique (l : list string) : list string := unique_from [] l.

(** [df[df['predictedPresent'] == True]] *)
Definition present_rows (df : list (MO.row Z)) : list (MO.row Z) :=
  List.filter (fun r => py_eq_True (MO.predictedPresent r)) df.

(** [df[df['Sample'] == sample_name]] *)
Definition rows_of_sample (sample_name : string) (df : list (MO.row Z))
  : list (MO.row Z) :=
  List.filter (fun r => String.eqb (MO.Sample r) sample_name) df.

(** The row of [sample_df] with its new column
    [(alignedReadCount / total_reads) * 100]. *)
Definition with_relative_abundance (total_reads : Z) (r : MO.row Z) : ra_entry :=
  {| ra_Sample := MO.Sample r;
     ra_Name := MO.Name r;
     ra_alignedReadCount := MO.alignedReadCount r;
     relativeAbundance :=
       (inject_Z (MO.alignedReadCount r) / inject_Z total_reads * 100)%Q |}.

Definition bar_filename (sample_name : string) : string :=
  "normalised_relativeAbundance_" +:+ sample_name +:+ ".jpg".

(** [if total_reads and total_reads > 0] on [total_reads_dict.get(...)] *)
Definition usable_total (total_reads : option Z) : option Z :=
  match total_reads with
  | Some t => if negb (t =? 0) && (0 <? t) then Some t else None
  | None => None
  end.

Section Calculator.
(** [sort_values('relativeAbundance(%)', ascending=False)], called
    with the default [kind]. *)
Variable sort_values_desc : list ra_entry -> list ra_entry.

(** One iteration of the loop of [plot_relative_abundance]: the paths it
    appends and the events it causes.  Rendering is done by the chart
    library and is taken to succeed. *)
Definition plot_sample (df_present_mo : list (MO.row Z))
    (total_reads_dict : gmap string Z) (sample_name : string)
  : list string * list event :=
  let sample_df := rows_of_sample sample_name df_present_mo in
  match usable_total (total_reads_dict !! sample_name) with
  | Some total_reads =>
      let ranked :=
        sort_values_desc (map (with_relative_abundance total_reads) sample_df) in
      ([bar_filename sample_name],
       [SaveBar (bar_filename sample_name) sample_name ranked])
  | None => ([], [Log WARNING (SkippingRelativeAbundance sample_name)])
  end.

Definition plot_relative_abundance (df : list (MO.row Z))
    (total_reads_dict : gmap string Z) : list string * list event :=
  let df_present_mo := present_rows df in
  let sample_with_present_mo := unique (map MO.Sample df_present_mo) in
  (flat_map (fun s => fst (plot_sample df_present_mo total_reads_dict s))
            sample_with_present_mo,
   flat_map (fun s => snd (plot_sample df_present_mo total_reads_dict s))
            sample_with_present_mo).
End Calculator.

(** *** Driver *)

Record environment : Type := {
  setup_ok : bool;                    (* the three [os.mkdir] calls go through *)
  listing : list (string * bool);     (* [os.listdir(".")] with [os.path.isdir] *)
  reports : filesystem
}.

Definition move_results (file_paths : list string) (target_dir : string) : list event :=
  map (fun path => Move path target_dir) file_paths.

Definition is_nil {A : Type} (l : list A) : bool :=
  match l with
  | [] => true
  | _ => false
  end.

Definition is_export (ev : event) : bool :=
  match ev with
  | ToExcel_mo _ _ | ToExcel_amr _ _ | SaveCounts _ | SaveBar _ _ _ | Move _ _ => true
  | _ => false
  end.

Definition is_print (ev : event) : bool :=
  match ev with
  | Print _ => true
  | _ => false
  end.

Section Driver.
Variable natsorted : list string -> list string.
Variable sort_values_desc : list ra_entry -> list ra_entry.

(** Steps 3 to 5 of [main], once both concatenations went through.
    Writing the spreadsheets, rendering the two count charts and moving
    the files are done by external libraries and are taken to succeed.
    [None]: the [alignedReadCount] column is not an integer column and the
    run leaves the modelled fragment. *)
Definition report_results (final_mo_df : list (MO.row pyval))
    (final_amr_df : list AMR.row) : option (list event) :=
  match int_frame final_mo_df with
  | None => None
  | Some df =>
      let table_paths := ["Microorganisms_table.xlsx"; "amrMarkers_table.xlsx"] in
      let '(ra_paths, tr_ra) :=
        plot_relative_abundance sort_values_desc df (total_reads_dict df) in
      let plot_paths := ["predictedPresent.jpg"; "class.jpg"] ++ ra_paths in
      Some ([ToExcel_mo "Microorganisms_table.xlsx" final_mo_df;
             ToExcel_amr "amrMarkers_table.xlsx" final_amr_df;
             SaveCounts "predictedPresent.jpg";
             SaveCounts "class.jpg"]
            ++ tr_ra
            ++ move_results table_paths TABLES_DIR
            ++ move_results plot_paths PLOTS_DIR
            ++ [Log INFO ProcessingComplete; Print success_message])
  end.

(** The [try] block of [main]: how it ends and what it did. *)
Definition main_try (env : environment) : option (result unit * list event) :=
  if negb (setup_ok env) then Some (Raise OSError, [Log ERROR (SetupFailed OSError)])
  else
    let '(sample_names, common_prefix) := extract_sample_info natsorted (listing env) in
    if is_nil sample_names
    then Some (Ok tt, [Log INFO DirsReady; Log WARNING NoSampleDirs])
    else
      let '(all_mo_tables, all_amr_tables, tr) :=
        process_samples (reports env) common_prefix sample_names in
      if is_nil all_mo_tables && is_nil all_amr_tables
      then Some (Ok tt, Log INFO DirsReady :: tr ++ [Log ERROR NoDataProcessed])
      else
        match pd_concat all_mo_tables, pd_concat all_amr_tables with
        | Raise e, _ => Some (Raise e, Log INFO DirsReady :: tr)
        | Ok _, Raise e => Some (Raise e, Log INFO DirsReady :: tr)
        | Ok final_mo_df, Ok final_amr_df =>
            match report_results final_mo_df final_amr_df with
            | Some tr' => Some (Ok tt, Log INFO DirsReady :: tr ++ tr')
            | None => None
            end
        end.

(** [main()]: the trace of the run.  [main] returns [None] on every path;
    the handler of the [try] block is the only place that prints
    [fatal_message]. *)
Definition main (env : environment) : option (list event) :=
  match main_try env with
  | Some (Ok _, tr) => Some tr
  | Some (Raise e, tr) => Some (tr ++ [Log CRITICAL (FatalError e); Print fatal_message])
  | None => None
  end.
End Driver.

(** ** What the properties below speak about *)

Definition mo_tables (fs : filesystem) (common_prefix : string) (names : list string)
  : list (list (MO.row pyval)) :=
  fst (fst (process_samples fs common_prefix names)).

Definition amr_tables (fs : filesystem) (common_prefix : string) (names : list string)
  : list (list AMR.row) :=
  snd (fst (process_samples fs common_prefix names)).

Definition sum_counts (df : list (MO.row Z)) : Z :=
  foldr (fun r acc => MO.alignedReadCount r + acc) 0 df.

Definition ra_ge (a b : ra_entry) : Prop :=
  (relativeAbundance b <= relativeAbundance a)%Q.

(** Descending by percentage. *)
Definition descending (l : list ra_entry) : Prop := StronglySorted ra_ge l.

Definition tied_at (q : Q) (l : list ra_entry) : list ra_entry :=
  List.filter (fun e => Qeq_bool (relativeAbundance e) q) l.

(** Entries with equal percentages keep the relative order they had in
    the input. *)
Definition stable_ties (input output : list ra_entry) : Prop :=
  forall q, tied_at q output = tied_at q input.

(** What the documentation of [sort_values] promises for every [kind]: the
    rows are rearranged, and they come out in the requested order.  Only
    [kind='mergesort'] and [kind='stable'] are documented as stable. *)
Definition rearranges (sort : list ra_entry -> list ra_entry) : Prop :=
  forall l, Permutation (sort l) l.

Definition sorts_descending (sort : list ra_entry -> list ra_entry) : Prop :=
  forall l, descending (sort l).

Definition label_is (sample_i : string) (label : string) : Prop :=
  label = "sample" +:+ sample_i /\ label <> "".

Definition is_log (ev : event) : bool :=
  match ev with
  | Log _ _ => true
  | _ => false
  end.

(** A message on standard output that is not the success message. *)
Definition reports_failure (tr : list event) : Prop :=
  exists text, In (Print text) tr /\ text <> success_message.

(** The sample has a row in the table. *)
Definition has_rows (df : list (MO.row Z)) (sample_name : string) : bool :=
  existsb (fun r => String.eqb (MO.Sample r) sample_name) df.

(** The sample has an organism that is predicted present. *)
Definition has_present (df : list (MO.row Z)) (sample_name : string) : bool :=
  has_rows (present_rows df) sample_name.

(** The rule of the derived presence flag, for an entry [item] and the
    row [r] extracted from it. *)
Definition presence_rule (item : pyval) (r : MO.row pyval) : Prop :=
  exists fields predicted_present,
    item = VDict fields /\
    item_predictedPresent item = Ok predicted_present /\
    (assoc "explifyInterpretation" fields = None -> predicted_present = VBool false) /\
    (forall ei, assoc "explifyInterpretation" fields = Some (VDict ei) ->
       predicted_present = default (VBool false) (assoc "predictedPresent" ei)) /\
    MO.predictedPresent r = predicted_present /\
    MO.alignedReadCount r = default (VInt 0) (assoc "alignedReadCount" fields) /\
    (forall b n, predicted_present = VBool b -> MO.alignedReadCount r = VInt n ->
       MO.Presence r = VBool (b || (5 <? n))) /\
    (predicted_present = VBool false -> MO.alignedReadCount r = VInt 6 ->
       MO.Presence r = VBool true) /\
    (predicted_present = VBool false -> MO.alignedReadCount r = VInt 5 ->
       MO.Presence r = VBool false) /\
    (forall b, predicted_present = VBool b ->
       assoc "alignedReadCount" fields = None -> MO.Presence r = VBool b).

(** ** Instances of the library functions, for running the model *)

Definition is_digit (c : ascii) : bool :=
  (48 <=? nat_of_ascii c)%nat && (nat_of_ascii c <=? 57)%nat.

Definition digit_value (c : ascii) : N := N.of_nat (nat_of_ascii c - 48).

(** The key of a natural-order sort: the name cut into text runs, each
    with the number that follows it. *)
Fixpoint natural_key (s : string) (text : string) (num : option N)
  : list (string * option N) :=
  match s with
  | EmptyString =>
      match text, num with
      | EmptyString, None => []
      | _, _ => [(text, num)]
      end
  | String c s' =>
      if is_digit c
      then natural_key s' text (Some (10 * default 0%N num + digit_value c)%N)
      else
        match num with
        | Some _ => (text, num) :: natural_key s' (String c EmptyString) None
        | None => natural_key s' (text +:+ String c EmptyString) None
        end
  end.

Fixpoint key_leb (k1 k2 : list (string * option N)) : bool :=
  match k1, k2 with
  | [], _ => true
  | _ :: _, [] => false
  | (t1, n1) :: r1, (t2, n2) :: r2 =>
      match String.compare t1 t2 with
      | Lt => true
      | Gt => false
      | Eq =>
          match n1, n2 with
          | None, _ => true
          | Some _, None => false
          | Some a, Some b =>
              if (a <? b)%N then true
              else if (b <? a)%N then false
              else key_leb r1 r2
          end
      end
  end.

Definition natural_leb (a b : string) : bool :=
  key_leb (natural_key a "" None) (natural_key b "" None).

Fixpoint insert_natural (x : string) (l : list string) : list string :=
  match l with
  | [] => [x]
  | y :: l' => if natural_leb x y then x :: y :: l' else y :: insert_natural x l'
  end.

Definition natsorted_ref (l : list string) : list string :=
  foldr insert_natural [] l.

(** Insertion from the right, each entry placed before the first one that
    is not larger: a stable descending sort. *)
Fixpoint insert_desc (e : ra_entry) (l : list ra_entry) : list ra_entry :=
  match l with
  | [] => [e]
  | x :: l' =>
      if Qle_bool (relativeAbundance x) (relativeAbundance e)
      then e :: x :: l'
      else x :: insert_desc e l'
  end.

Definition sort_values_stable (l : list ra_entry) : list ra_entry :=
  foldr insert_desc [] l.

(** The same order with ties reversed. *)
Definition sort_values_ties_reversed (l : list ra_entry) : list ra_entry :=
  sort_values_stable (rev l).

(** ** Example inputs *)

Definition organism (name : string) (count : Z) (present : bool) : pyval :=
  VDict [("name", VStr name); ("alignedReadCount", VInt count);
         ("ani", VFloat (9912 # 10000)); ("rpkm", VFloat (25 # 2));
         ("explifyInterpretation", VDict [("predictedPresent", VBool present)])].

Definition report_of (microorganisms amr_markers : list pyval) : pyval :=
  VDict [("targetReport",
          VDict [("microorganisms", VList microorganisms);
                 ("amrMarkers", VList amr_markers)])].

Definition report_batch1 : pyval :=
  report_of
    [organism "Escherichia coli" 80 true;
     VDict [("name", VStr "Staphylococcus aureus"); ("alignedReadCount", VInt 6)];
     VDict [("name", VStr "Klebsiella pneumoniae"); ("alignedReadCount", VInt 5)];
     VDict [("name", VStr "Candida albicans");
            ("explifyInterpretation", VDict [("predictedPresent", VBool true)])];
     VDict [("name", VStr "Proteus mirabilis"); ("alignedReadCount", VInt 9)]]
    [VDict [("name", VStr "blaTEM"); ("coverage", VFloat (987 # 1000));
            ("associatedMicroorganisms", VDict [("all", VList [VStr "Escherichia coli"])])];
     VDict [("name", VStr "mecA")]].

(** An entry whose [ani] is JSON [null], after a well-formed one. *)
Definition report_null_ani : pyval :=
  report_of
    [organism "Escherichia coli" 80 true;
     VDict [("name", VStr "Staphylococcus aureus"); ("ani", VNone)]]
    [].

(** A marker whose associated list is present and empty, before a
    well-formed one. *)
Definition report_empty_all : pyval :=
  report_of []
    [VDict [("name", VStr "blaTEM");
            ("associatedMicroorganisms", VDict [("all", VList [])])];
     VDict [("name", VStr "mecA")]].

Definition fs_with (path : string) (doc : pyval) : filesystem :=
  fun p => if String.eqb p path then Loaded doc else FileNotFound.

Definition fs_empty : filesystem := fun _ => FileNotFound.

(** [batch1] has a report, the report of [batch2] is missing. *)
Definition env_batch : environment :=
  {| setup_ok := true;
     listing := [("batch2", true); ("Results", true); ("batch1", true);
                 ("notes.txt", false)];
     reports := fs_with "batch1/sample1.1.report.json" report_batch1 |}.

(** Both reports are missing. *)
Definition env_no_reports : environment :=
  {| setup_ok := true;
     listing := [("batch1", true); ("batch2", true)];
     reports := fs_empty |}.

Definition typed_row (sample name : string) (count : Z) (present : bool) : MO.row Z :=
  MO.mk sample (VStr name) count (VInt 0) (VInt 0) VNone VNone (VBool present)
        (VBool (present || (5 <? count))).

(** Two present organisms with the same count, and one that is not
    predicted present. *)
Definition df_ties : list (MO.row Z) :=
  [typed_row "sample1" "A" 10 true;
   typed_row "sample1" "B" 10 true;
   typed_row "sample1" "C" 20 false].

(** A sample with no reads and no organism predicted present. *)
Definition df_silent : list (MO.row Z) :=
  [typed_row "sample1" "A" 0 false].

(** A sample whose only organism is predicted present with no reads. *)
Definition df_zero_present : list (MO.row Z) :=
  [typed_row "sample1" "A" 0 true; typed_row "sample2" "B" 4 true].

(** ** Further notions used by the properties *)

(** The records that pass the threshold of [basicConfig] and are written
    to the log file. *)
Definition log_file (tr : list event) : list event :=
  List.filter (fun ev => match ev with
                         | Log lv _ => reaches_log_file lv
                         | _ => false
                         end) tr.

(** [int], [bool] and [float]: the values [round] and [>] accept. *)
Definition is_number (v : pyval) : bool :=
  match v with
  | VInt _ | VBool _ | VFloat _ => true
  | _ => false
  end.

(** The sum of the percentages of a chart. *)
Definition sum_percentages (bars : list ra_entry) : Q :=
  foldr (fun e acc => (relativeAbundance e + acc)%Q) 0%Q bars.

(** The file names of the charts a trace saves, in order. *)
Definition saved_bars (tr : list event) : list string :=
  omap (fun ev => match ev with
                  | SaveBar filename _ _ => Some filename
                  | _ => None
                  end) tr.

(** Case analysis on membership in a list built with [::] and [++]. *)
Ltac split_in H :=
  repeat match type of H with
         | In _ (_ :: _) => destruct H as [H|H]
         | In _ (_ ++ _) => apply in_app_or in H as [H|H]
         | In _ [] => destruct H
         | _ \/ _ => destruct H as [H|H]
         | False => destruct H
         end.

Ltac finish_in Hra H :=
  match type of H with
  | In _ (move_results _ _) =>
      unfold move_results in H; apply in_map_iff in H as (? & Heq & _); discriminate
  | In _ _ =>
      destruct (Hra _ H) as [(? & ? & ? & Heq)|(? & ? & Heq)]; discriminate
  | _ = _ => injection H as <- <-; split; reflexivity
  end.


(** A run whose only report has microorganisms and no AMR marker. *)
Definition env_no_amr : environment :=
  {| setup_ok := true;
     listing := [("batch1", true); ("batch2", true)];
     reports := fs_with "batch1/sample1.1.report.json"
                  (report_of [organism "Escherichia coli" 80 true] []) |}.

(** A working directory without sample directories. *)
Definition env_no_samples : environment :=
  {| setup_ok := true;
     listing := [("Results", true); ("Results_old", true); ("notes.txt", false)];
     reports := fs_empty |}.

(** * Properties *)

(** ** The extractors *)

Lemma for_each_Forall2 {A B : Type} (f : A -> result B) (l : list A) (ys : list B) :
  for_each f l = Ok ys -> Forall2 (fun x y => f x = Ok y) l ys.
Proof.
  revert ys. induction l as [|x l IH]; intros ys H; simpl in H.
  - injection H as <-. constructor.
  - destruct (f x) as [y|e] eqn:Hx; simpl in H; [|discriminate].
    destruct (for_each f l) as [ys'|e] eqn:Hl; simpl in H; [|discriminate].
    injection H as <-. constructor; auto.
Qed.

Lemma for_each_raises {A B : Type} (f : A -> result B) (l : list A) (x : A) :
  In x l -> (exists e, f x = Raise e) -> exists e, for_each f l = Raise e.
Proof.
  induction l as [|y l IH]; intros Hin Hx; [destruct Hin|].
  simpl. destruct (f y) as [b|e] eqn:Hy; simpl; [|eauto].
  destruct Hin as [->|Hin].
  - destruct Hx as [e He]. congruence.
  - destruct (IH Hin Hx) as [e ->]. simpl. eauto.
Qed.

Lemma py_get_Ok (obj : pyval) (key : string) (dflt v : pyval) :
  py_get obj key dflt = Ok v ->
  exists items, obj = VDict items /\ v = default dflt (assoc key items).
Proof.
  destruct obj; simpl; intros H; try discriminate.
  injection H as <-. eauto.
Qed.

Lemma target_list_Ok (report : pyval) (key : string) (v : pyval) :
  target_list report key = Ok v -> exists items, report = VDict items.
Proof.
  unfold target_list. intros H.
  destruct (py_get report "targetReport" (VDict [])) as [tr|e] eqn:Hg; [|discriminate].
  apply py_get_Ok in Hg as (items & -> & _). eauto.
Qed.

Lemma mo_row_not_dict (sample_i : string) (item : pyval) :
  (forall fields, item <> VDict fields) -> mo_row sample_i item = Raise AttributeError.
Proof.
  intros H. destruct item; try reflexivity. exfalso. eapply H. reflexivity.
Qed.

Lemma amr_row_not_dict (sample_i : string) (item : pyval) :
  (forall fields, item <> VDict fields) -> amr_row sample_i item = Raise AttributeError.
Proof.
  intros H. destruct item; try reflexivity. exfalso. eapply H. reflexivity.
Qed.

(** A table comes out of [process_microorganisms] only along one path:
    the report was loaded, the list at the fixed path is a non-empty
    list, and every entry gave its row. *)
Lemma process_microorganisms_Some fs sample_i common_prefix df :
  fst (process_microorganisms fs sample_i common_prefix) = Some df ->
  exists report items,
    fs (report_path sample_i common_prefix) = Loaded report /\
    target_list report "microorganisms" = Ok (VList items) /\
    Forall2 (fun item r => mo_row sample_i item = Ok r) items df.
Proof.
  unfold process_microorganisms, load_json_report.
  destruct (fs (report_path sample_i common_prefix)) as [| | |report] eqn:Hfs;
    simpl; try discriminate.
  intros H. exists report.
  assert (Hk : match target_list report "microorganisms" with
               | Raise e => None
               | Ok trmo =>
                   if negb (truthy trmo) then None
                   else match (items <- py_iter trmo ;; for_each (mo_row sample_i) items) with
                        | Ok rows => Some rows
                        | Raise _ => None
                        end
               end = Some df).
  { destruct report; simpl in H; try discriminate;
      destruct (target_list _ _) as [trmo|e]; simpl in *; try discriminate;
      destruct (negb (truthy trmo)); simpl in *; try discriminate;
      destruct (bind _ _); simpl in *; try discriminate; exact H. }
  clear H. destruct (target_list report "microorganisms") as [trmo|e]; [|discriminate].
  destruct (negb (truthy trmo)) eqn:Ht; [discriminate|].
  destruct trmo as [| | | |s|items|items]; simpl in Hk; try discriminate.
  - destruct s as [|c s]; [discriminate|]. simpl in Hk. discriminate.
  - exists items. split; [reflexivity|]. split; [reflexivity|].
    destruct (for_each (mo_row sample_i) items) as [rows|e] eqn:Hrows; [|discriminate].
    injection Hk as <-. apply for_each_Forall2; assumption.
  - destruct items as [|[k v] items]; [discriminate|]. simpl in Hk. discriminate.
Qed.

Lemma process_amr_markers_Some fs sample_i common_prefix df :
  fst (process_amr_markers fs sample_i common_prefix) = Some df ->
  exists report items,
    fs (report_path sample_i common_prefix) = Loaded report /\
    target_list report "amrMarkers" = Ok (VList items) /\
    Forall2 (fun item r => amr_row sample_i item = Ok r) items df.
Proof.
  unfold process_amr_markers, load_json_report.
  destruct (fs (report_path sample_i common_prefix)) as [| | |report] eqn:Hfs;
    simpl; try discriminate.
  intros H. exists report.
  assert (Hk : match target_list report "amrMarkers" with
               | Raise e => None
               | Ok tramr =>
                   if negb (truthy tramr) then None
                   else match (items <- py_iter tramr ;; for_each (amr_row sample_i) items) with
                        | Ok rows => Some rows
                        | Raise _ => None
                        end
               end = Some df).
  { destruct report; simpl in H; try discriminate;
      destruct (target_list _ _) as [tramr|e]; simpl in *; try discriminate;
      destruct (negb (truthy tramr)); simpl in *; try discriminate;
      destruct (bind _ _); simpl in *; try discriminate; exact H. }
  clear H. destruct (target_list report "amrMarkers") as [tramr|e]; [|discriminate].
  destruct (negb (truthy tramr)) eqn:Ht; [discriminate|].
  destruct tramr as [| | | |s|items|items]; simpl in Hk; try discriminate.
  - destruct s as [|c s]; [discriminate|]. simpl in Hk. discriminate.
  - exists items. split; [reflexivity|]. split; [reflexivity|].
    destruct (for_each (amr_row sample_i) items) as [rows|e] eqn:Hrows; [|discriminate].
    injection Hk as <-. apply for_each_Forall2; assumption.
  - destruct items as [|[k v] items]; [discriminate|]. simpl in Hk. discriminate.
Qed.

Lemma mo_row_presence (sample_i : string) (item : pyval) (r : MO.row pyval) :
  mo_row sample_i item = Ok r -> presence_rule item r.
Proof.
  intros H. destruct item as [| | | | | |fields]; try discriminate.
  unfold mo_row in H.
  destruct (item_predictedPresent (VDict fields)) as [pp|e] eqn:Hpp;
    simpl in H; [|discriminate].
  destruct (py_round2 _) as [ani2|e]; [|discriminate]. simpl in H.
  destruct (py_round2 _) as [rpkm2|e]; [|discriminate]. simpl in H.
  assert (Hpres : forall b n, pp = VBool b ->
            default (VInt 0) (assoc "alignedReadCount" fields) = VInt n ->
            MO.Presence r = VBool (b || (5 <? n))).
  { intros b n -> Hn. rewrite Hn in H. simpl in H.
    destruct b; simpl in H; injection H as <-; reflexivity. }
  assert (Hfields : MO.predictedPresent r = pp /\
            MO.alignedReadCount r = default (VInt 0) (assoc "alignedReadCount" fields)).
  { destruct (if truthy pp then _ else _) as [presence|e]; [|discriminate].
    simpl in H. injection H as <-. split; reflexivity. }
  destruct Hfields as [Hp Hc].
  exists fields, pp. repeat split; try assumption.
  - intros Hnone. unfold item_predictedPresent in Hpp. simpl in Hpp.
    rewrite Hnone in Hpp. simpl in Hpp. injection Hpp as <-. reflexivity.
  - intros ei Hei. unfold item_predictedPresent in Hpp. simpl in Hpp.
    rewrite Hei in Hpp. simpl in Hpp. injection Hpp as <-. reflexivity.
  - intros b n Hb Hn. apply Hpres; [assumption|rewrite <- Hc; assumption].
  - intros Hb Hn. rewrite (Hpres false 6); [reflexivity|assumption|rewrite <- Hc; assumption].
  - intros Hb Hn. rewrite (Hpres false 5); [reflexivity|assumption|rewrite <- Hc; assumption].
  - intros b Hb Hnone. rewrite (Hpres b 0); [|assumption|rewrite Hnone; reflexivity].
    destruct b; reflexivity.
Qed.

(** C1. Every row of a table returned by [process_microorganisms] comes
    from one entry of the report's microorganism list, in order, and its
    [Presence] is [predictedPresent or alignedReadCount > 5] with
    [predictedPresent] defaulting to [False] and [alignedReadCount] to [0]:
    for a Boolean flag [b] and an integer count [n] it is [b || (5 <? n)];
    count 6 with flag false gives true, count 5 with flag false gives
    false, and with the count absent it is the flag alone. *)
Theorem C1_presence_flag fs sample_i common_prefix df :
  fst (process_microorganisms fs sample_i common_prefix) = Some df ->
  exists report items,
    fs (report_path sample_i common_prefix) = Loaded report /\
    target_list report "microorganisms" = Ok (VList items) /\
    Forall2 presence_rule items df.
Proof.
  intros H. apply process_microorganisms_Some in H as (report & items & Hfs & Ht & Hrows).
  exists report, items. split; [assumption|]. split; [assumption|].
  clear Ht. induction Hrows; constructor; [eapply mo_row_presence; eassumption|assumption].
Qed.

(** The rule on the report of [batch1]: the five entries give the flags
    true (predicted present), true (count 6), false (count 5), true
    (predicted present, count absent) and true (count 9). *)
Lemma C1_presence_flag_witness :
  exists df,
    fst (process_microorganisms (reports env_batch) "1" "batch") = Some df /\
    map MO.Presence df =
      [VBool true; VBool true; VBool false; VBool true; VBool true] /\
    exists report items,
      reports env_batch (report_path "1" "batch") = Loaded report /\
      target_list report "microorganisms" = Ok (VList items) /\
      Forall2 presence_rule items df.
Proof.
  eexists. split; [vm_compute; reflexivity|]. split; [reflexivity|].
  apply (C1_presence_flag (reports env_batch) "1" "batch"). reflexivity.
Defined.

Lemma py_round2_raises (v : pyval) (e : exn) : py_round2 v = Raise e -> e = TypeError.
Proof. destruct v; simpl; intros H; try discriminate; injection H as <-; reflexivity. Qed.

Lemma mo_row_null_number (sample_i : string) (fields : list (string * pyval)) :
  assoc "ani" fields = Some VNone \/ assoc "rpkm" fields = Some VNone ->
  exists e, mo_row sample_i (VDict fields) = Raise e /\
            (forall pp, item_predictedPresent (VDict fields) = Ok pp -> e = TypeError).
Proof.
  intros Hnull. unfold mo_row.
  destruct (item_predictedPresent (VDict fields)) as [pp|e] eqn:Hpp; simpl.
  2:{ exists e. split; [reflexivity|]. intros pp Hpp'. discriminate. }
  destruct Hnull as [Hani|Hrpkm].
  - rewrite Hani. simpl. exists TypeError. split; [reflexivity|]. reflexivity.
  - destruct (py_round2 (default (VInt 0) (assoc "ani" fields))) as [ani2|e] eqn:Hr; simpl.
    + rewrite Hrpkm. simpl. exists TypeError. split; reflexivity.
    + exists e. split; [reflexivity|]. intros _ _. eapply py_round2_raises; eassumption.
Qed.

(** C9. Defaulting is for absent keys only.  When some entry of the
    microorganism list has its [ani] (or [rpkm]) key present with the value
    [null], [.get] hands the [null] through, [round] raises [TypeError] on
    it, the handler around the loop catches it and
    [process_microorganisms] returns no table: the sample contributes no
    microorganism row at all, whatever its other entries are. *)
Theorem C9_null_number_drops_sample fs sample_i common_prefix report items fields :
  fs (report_path sample_i common_prefix) = Loaded report ->
  target_list report "microorganisms" = Ok (VList items) ->
  In (VDict fields) items ->
  assoc "ani" fields = Some VNone \/ assoc "rpkm" fields = Some VNone ->
  (py_get (VDict fields) "ani" (VInt 0) = Ok VNone \/
   py_get (VDict fields) "rpkm" (VInt 0) = Ok VNone) /\
  py_round2 VNone = Raise TypeError /\
  (exists e, mo_row sample_i (VDict fields) = Raise e /\
             (forall pp, item_predictedPresent (VDict fields) = Ok pp -> e = TypeError)) /\
  exists e, process_microorganisms fs sample_i common_prefix
            = (None, [Log ERROR (MicroorganismError sample_i e)]).
Proof.
  intros Hfs Ht Hin Hnull.
  split. { destruct Hnull as [H|H]; [left|right]; simpl; rewrite H; reflexivity. }
  split; [reflexivity|].
  destruct (mo_row_null_number sample_i fields Hnull) as (e & He & Hty).
  split. { exists e. split; assumption. }
  destruct (for_each_raises (mo_row sample_i) items (VDict fields) Hin) as [e' He'];
    [eauto|].
  exists e'. unfold process_microorganisms, load_json_report. rewrite Hfs.
  destruct (target_list_Ok _ _ _ Ht) as [ritems ->].
  rewrite Ht. destruct items as [|i items]; [destruct Hin|].
  cbn [truthy negb py_iter bind]. rewrite He'. reflexivity.
Qed.

Lemma C9_null_number_drops_sample_witness :
  let fs := fs_with "batch1/sample1.1.report.json" report_null_ani in
  let fields := [("name", VStr "Staphylococcus aureus"); ("ani", VNone)] in
  mo_row "1" (organism "Escherichia coli" 80 true)
    = Ok (MO.mk "sample1" (VStr "Escherichia coli") (VInt 80) (VFloat (99 # 100))
                (VFloat (25 # 2)) VNone VNone (VBool true) (VBool true)) /\
  mo_row "1" (VDict fields) = Raise TypeError /\
  process_microorganisms fs "1" "batch"
    = (None, [Log ERROR (MicroorganismError "1" TypeError)]) /\
  exists e, process_microorganisms fs "1" "batch"
            = (None, [Log ERROR (MicroorganismError "1" e)]).
Proof.
  intros fs fields. split; [reflexivity|]. split; [reflexivity|]. split; [reflexivity|].
  apply (C9_null_number_drops_sample fs "1" "batch" report_null_ani
           [organism "Escherichia coli" 80 true; VDict fields] fields).
  - reflexivity.
  - reflexivity.
  - right. left. reflexivity.
  - left. reflexivity.
Defined.

Lemma associated_mo_missing (fields : list (string * pyval)) :
  assoc "associatedMicroorganisms" fields = None ->
  associated_mo (VDict fields) = Ok VNone.
Proof. intros H. unfold associated_mo. simpl. rewrite H. reflexivity. Qed.

Lemma associated_mo_all_missing (fields am : list (string * pyval)) :
  assoc "associatedMicroorganisms" fields = Some (VDict am) ->
  assoc "all" am = None ->
  associated_mo (VDict fields) = Ok VNone.
Proof. intros H Hall. unfold associated_mo. simpl. rewrite H. simpl. rewrite Hall. reflexivity. Qed.

Lemma associated_mo_all_empty (fields am : list (string * pyval)) :
  assoc "associatedMicroorganisms" fields = Some (VDict am) ->
  assoc "all" am = Some (VList []) ->
  associated_mo (VDict fields) = Raise IndexError.
Proof. intros H Hall. unfold associated_mo. simpl. rewrite H. simpl. rewrite Hall. reflexivity. Qed.

Lemma amr_row_all_empty (sample_i : string) (fields am : list (string * pyval)) :
  assoc "associatedMicroorganisms" fields = Some (VDict am) ->
  assoc "all" am = Some (VList []) ->
  amr_row sample_i (VDict fields) = Raise IndexError.
Proof.
  intros H Hall. unfold amr_row. rewrite (associated_mo_all_empty fields am H Hall).
  reflexivity.
Qed.

(** C4, on the report whose first marker has
    ["associatedMicroorganisms": {"all": []}] and whose second marker is
    well-formed.  The default [[None]] covers the missing key only: on the
    empty list [[0]] raises [IndexError], the handler around the loop
    catches it, and [process_amr_markers] returns no table, so the
    well-formed marker is lost with it.  The same second marker alone gives
    its row, with a null associated microorganism. *)
Theorem C4_empty_associated_list_drops_sample :
  let fs := fs_with "batch1/sample1.1.report.json" report_empty_all in
  associated_mo (VDict [("name", VStr "blaTEM");
                        ("associatedMicroorganisms", VDict [("all", VList [])])])
    = Raise IndexError /\
  process_amr_markers fs "1" "batch" = (None, [Log ERROR (AmrError "1" IndexError)]) /\
  (AMR.associatedMicroorganisms <$>
     match amr_row "1" (VDict [("name", VStr "mecA")]) with
     | Ok r => Some r
     | Raise _ => None
     end) = Some VNone.
Proof. intros fs. split; [reflexivity|]. split; reflexivity. Qed.

(** ** Discovery and the loader *)

Lemma string_drop_app (p s : string) : string_drop (String.length p) (p +:+ s) = s.
Proof. induction p as [|c p IH]; simpl; [destruct s; reflexivity|exact IH]. Qed.

Lemma string_drop_all (s : string) : string_drop (String.length s) s = "".
Proof. induction s as [|c s IH]; simpl; [reflexivity|exact IH]. Qed.

Lemma app_string_assoc (a b c : string) : (a +:+ b) +:+ c = a +:+ (b +:+ c).
Proof.
  induction a as [|x a IH]; [reflexivity|].
  change (String x ((a +:+ b) +:+ c) = String x (a +:+ (b +:+ c))).
  f_equal. exact IH.
Qed.

Lemma app_string_empty_r (s : string) : s +:+ "" = s.
Proof.
  induction s as [|c s IH]; [reflexivity|].
  change (String c (s +:+ "") = String c s). f_equal. exact IH.
Qed.

Lemma common_prefix2_l (s t : string) : exists r, s = common_prefix2 s t +:+ r.
Proof.
  revert t. induction s as [|c s IH]; intros t; simpl.
  - exists "". reflexivity.
  - destruct t as [|d t]; [exists (String c s); reflexivity|].
    destruct (Ascii.eqb c d); [|exists (String c s); reflexivity].
    destruct (IH t) as [r Hr]. exists r.
    change (String c s = String c (common_prefix2 s t +:+ r)). f_equal. exact Hr.
Qed.

Lemma common_prefix2_r (s t : string) : exists r, t = common_prefix2 s t +:+ r.
Proof.
  revert t. induction s as [|c s IH]; intros t; simpl.
  - exists t. reflexivity.
  - destruct t as [|d t]; [exists ""; reflexivity|].
    destruct (Ascii.eqb c d) eqn:Hcd; [|exists (String d t); reflexivity].
    apply Ascii.eqb_eq in Hcd as ->.
    destruct (IH t) as [r Hr]. exists r.
    change (String d t = String d (common_prefix2 s t +:+ r)). f_equal. exact Hr.
Qed.

Lemma fold_common_prefix2_acc (rest : list string) (s : string) :
  exists r, s = fold_left common_prefix2 rest s +:+ r.
Proof.
  revert s. induction rest as [|x rest IH]; intros s; simpl.
  - exists "". symmetry. apply app_string_empty_r.
  - destruct (IH (common_prefix2 s x)) as [r Hr].
    destruct (common_prefix2_l s x) as [r' Hr'].
    exists (r +:+ r'). rewrite <- app_string_assoc, <- Hr. exact Hr'.
Qed.

Lemma fold_common_prefix2_elem (rest : list string) (s x : string) :
  In x rest -> exists r, x = fold_left common_prefix2 rest s +:+ r.
Proof.
  revert s. induction rest as [|y rest IH]; intros s Hin; [destruct Hin|].
  simpl. destruct Hin as [->|Hin]; [|apply IH; assumption].
  destruct (fold_common_prefix2_acc rest (common_prefix2 s x)) as [r Hr].
  destruct (common_prefix2_r s x) as [r' Hr'].
  exists (r +:+ r'). rewrite <- app_string_assoc, <- Hr. exact Hr'.
Qed.

(** [commonprefix] is a prefix of every element. *)
Lemma commonprefix_prefix (m : list string) (s : string) :
  In s m -> exists r, s = commonprefix m +:+ r.
Proof.
  destruct m as [|s0 rest]; intros Hin; [destruct Hin|].
  simpl. destruct Hin as [<-|Hin].
  - apply fold_common_prefix2_acc.
  - apply fold_common_prefix2_elem; assumption.
Qed.

Lemma prefix_then_suffix (m : list string) (s : string) :
  In s m -> commonprefix m +:+ string_drop (String.length (commonprefix m)) s = s.
Proof.
  intros Hin. destruct (commonprefix_prefix m s Hin) as [r Hr].
  rewrite Hr at 1. rewrite string_drop_app. symmetry. exact Hr.
Qed.

Lemma sample_label_inj (i j : string) : sample_label i = sample_label j -> i = j.
Proof. unfold sample_label. simpl. intros H. injection H as H. exact H. Qed.

Lemma sample_label_nonempty (i : string) : label_is i (sample_label i).
Proof. split; [reflexivity|]. unfold sample_label. simpl. discriminate. Qed.

Lemma mo_row_Sample (sample_i : string) (item : pyval) (r : MO.row pyval) :
  mo_row sample_i item = Ok r -> MO.Sample r = sample_label sample_i.
Proof.
  unfold mo_row. intros H.
  repeat match type of H with
         | bind ?c _ = Ok _ => destruct c; simpl in H; [|discriminate]
         end.
  injection H as <-. reflexivity.
Qed.

Lemma amr_row_SampleID (sample_i : string) (item : pyval) (r : AMR.row) :
  amr_row sample_i item = Ok r -> AMR.SampleID r = sample_label sample_i.
Proof.
  unfold amr_row. intros H.
  repeat match type of H with
         | bind ?c _ = Ok _ => destruct c; simpl in H; [|discriminate]
         end.
  injection H as <-. reflexivity.
Qed.

Lemma Forall2_In_r {A B : Type} (P : A -> B -> Prop) (l : list A) (k : list B) (y : B) :
  Forall2 P l k -> In y k -> exists x, In x l /\ P x y.
Proof.
  induction 1 as [|x y' l k Hxy _ IH]; intros Hin; [destruct Hin|].
  destruct Hin as [<-|Hin]; [exists x; split; [left; reflexivity|assumption]|].
  destruct (IH Hin) as (x' & Hx' & HP). exists x'. split; [right; assumption|assumption].
Qed.

Lemma load_json_report_reads fs sample_i common_prefix :
  fst (load_json_report fs sample_i common_prefix) =
    match fs (os_path_join (common_prefix +:+ sample_i) (report_name sample_i)) with
    | Loaded doc => doc
    | _ => VNone
    end.
Proof.
  unfold load_json_report, report_path, sample_folder.
  destruct (fs _); reflexivity.
Qed.

Section DiscoveryFacts.
Variable natsorted : list string -> list string.
Hypothesis natsorted_perm : forall l, Permutation (natsorted l) l.

Lemma extract_sample_info_dirs (listing : list (string * bool)) :
  map (fun sample_i => snd (extract_sample_info natsorted listing) +:+ sample_i)
      (fst (extract_sample_info natsorted listing))
  = natsorted (sample_dirs listing).
Proof.
  unfold extract_sample_info. simpl.
  set (files := natsorted (sample_dirs listing)).
  rewrite map_map.
  transitivity (map (fun f : string => f) files); [|apply map_id].
  apply map_ext_in. intros f Hf. apply prefix_then_suffix. exact Hf.
Qed.

(** C5. For every identifier that discovery returns, whatever the common
    prefix: prefix + identifier is one of the sample directories of the
    listing; the loader reads the file [sample<id>.<id>.report.json] of
    that directory; every microorganism row and every AMR row produced
    for the identifier carries the label ["sample" + identifier], which
    is not empty; and two discovered identifiers with the same label
    are the same identifier, hence the same directory. *)
Theorem C5_sample_label (listing : list (string * bool)) (fs : filesystem)
    (sample_i : string) :
  let sample_names := fst (extract_sample_info natsorted listing) in
  let common_prefix := snd (extract_sample_info natsorted listing) in
  In sample_i sample_names ->
  In (common_prefix +:+ sample_i) (sample_dirs listing) /\
  fst (load_json_report fs sample_i common_prefix) =
    match fs (os_path_join (common_prefix +:+ sample_i) (report_name sample_i)) with
    | Loaded doc => doc
    | _ => VNone
    end /\
  (forall df r, fst (process_microorganisms fs sample_i common_prefix) = Some df ->
                In r df -> label_is sample_i (MO.Sample r)) /\
  (forall df r, fst (process_amr_markers fs sample_i common_prefix) = Some df ->
                In r df -> label_is sample_i (AMR.SampleID r)) /\
  (forall sample_j, In sample_j sample_names ->
                    sample_label sample_i = sample_label sample_j ->
                    common_prefix +:+ sample_i = common_prefix +:+ sample_j).
Proof.
  intros sample_names common_prefix Hin.
  split.
  { eapply Permutation_in; [apply natsorted_perm|].
    rewrite <- extract_sample_info_dirs.
    apply (in_map (fun s => common_prefix +:+ s)). exact Hin. }
  split; [apply load_json_report_reads|].
  split.
  { intros df r Hdf Hr.
    apply process_microorganisms_Some in Hdf as (report & items & _ & _ & Hrows).
    destruct (Forall2_In_r _ _ _ _ Hrows Hr) as (item & _ & Hitem).
    rewrite (mo_row_Sample _ _ _ Hitem). apply sample_label_nonempty. }
  split.
  { intros df r Hdf Hr.
    apply process_amr_markers_Some in Hdf as (report & items & _ & _ & Hrows).
    destruct (Forall2_In_r _ _ _ _ Hrows Hr) as (item & _ & Hitem).
    rewrite (amr_row_SampleID _ _ _ Hitem). apply sample_label_nonempty. }
  intros sample_j _ Heq. apply sample_label_inj in Heq as ->. reflexivity.
Qed.

(** C10. With exactly one qualifying directory [d], discovery returns
    the prefix [d] and the single identifier [""]; the report name is
    then ["sample..report.json"] whatever [d] is, and the loader reads
    that file of the directory [d]. *)
Theorem C10_single_directory (listing : list (string * bool)) (d : string)
    (fs : filesystem) :
  sample_dirs listing = [d] ->
  extract_sample_info natsorted listing = ([""], d) /\
  report_name "" = "sample..report.json" /\
  report_path "" d = os_path_join d "sample..report.json" /\
  fst (load_json_report fs "" d) =
    match fs (os_path_join d "sample..report.json") with
    | Loaded doc => doc
    | _ => VNone
    end.
Proof.
  intros Hd.
  assert (Hsorted : natsorted [d] = [d]).
  { apply Permutation_length_1_inv. apply Permutation_sym. apply natsorted_perm. }
  split.
  { unfold extract_sample_info. rewrite Hd, Hsorted. simpl.
    rewrite string_drop_all. reflexivity. }
  split; [reflexivity|].
  assert (Hfolder : sample_folder "" d = d).
  { unfold sample_folder. apply app_string_empty_r. }
  split.
  { unfold report_path. rewrite Hfolder. reflexivity. }
  unfold load_json_report, report_path. rewrite Hfolder.
  change (report_name "") with "sample..report.json".
  destruct (fs _); reflexivity.
Qed.
End DiscoveryFacts.

Lemma insert_natural_perm (x : string) (l : list string) :
  Permutation (insert_natural x l) (x :: l).
Proof.
  induction l as [|y l IH]; simpl; [reflexivity|].
  destruct (natural_leb x y); [reflexivity|].
  rewrite IH. apply perm_swap.
Qed.

Lemma natsorted_ref_perm (l : list string) : Permutation (natsorted_ref l) l.
Proof.
  induction l as [|x l IH]; simpl; [reflexivity|].
  unfold natsorted_ref in *. simpl. rewrite insert_natural_perm.
  apply perm_skip. exact IH.
Qed.

(** Natural order: [sample2] comes before [sample10] and before
    [sample2a]. *)
Example natsorted_ref_example :
  natsorted_ref ["sample10"; "sample2a"; "sample2"] = ["sample2"; "sample2a"; "sample10"].
Proof. reflexivity. Qed.

Lemma C5_sample_label_witness :
  extract_sample_info natsorted_ref (listing env_batch) = (["1"; "2"], "batch") /\
  In "batch1" (sample_dirs (listing env_batch)) /\
  (forall df r,
      fst (process_microorganisms (reports env_batch) "1" "batch") = Some df ->
      In r df -> label_is "1" (MO.Sample r)).
Proof.
  split; [reflexivity|].
  pose proof (C5_sample_label natsorted_ref natsorted_ref_perm (listing env_batch)
                (reports env_batch) "1") as H.
  simpl in H. destruct H as (Hdir & _ & Hmo & _); [left; reflexivity|].
  split; [exact Hdir|exact Hmo].
Defined.

Lemma C10_single_directory_witness :
  sample_dirs [("run_2024", true); ("Results", true); ("README", false)] = ["run_2024"] /\
  extract_sample_info natsorted_ref
    [("run_2024", true); ("Results", true); ("README", false)] = ([""], "run_2024") /\
  report_path "" "run_2024" = "run_2024/sample..report.json".
Proof.
  split; [reflexivity|].
  destruct (C10_single_directory natsorted_ref natsorted_ref_perm
              [("run_2024", true); ("Results", true); ("README", false)] "run_2024"
              fs_empty) as (Hinfo & _ & Hpath & _); [reflexivity|].
  split; [exact Hinfo|exact Hpath].
Defined.

(** ** The per-sample loop and the driver *)

Lemma load_json_report_logs fs sample_i common_prefix :
  Forall (fun ev => is_log ev = true) (snd (load_json_report fs sample_i common_prefix)).
Proof.
  unfold load_json_report. destruct (fs _); simpl; repeat constructor.
Qed.

Lemma load_json_report_failed fs sample_i common_prefix :
  (forall doc, fs (report_path sample_i common_prefix) <> Loaded doc) ->
  fst (load_json_report fs sample_i common_prefix) = VNone.
Proof.
  unfold load_json_report. intros H.
  destruct (fs _) as [| | |doc] eqn:Hfs; try reflexivity.
  exfalso. apply (H doc). reflexivity.
Qed.

Lemma process_microorganisms_logs fs sample_i common_prefix :
  Forall (fun ev => is_log ev = true)
         (snd (process_microorganisms fs sample_i common_prefix)).
Proof.
  unfold process_microorganisms.
  pose proof (load_json_report_logs fs sample_i common_prefix) as Hl.
  destruct (load_json_report fs sample_i common_prefix) as [report tr]. simpl in Hl.
  assert (Hadd : forall lv m, Forall (fun ev => is_log ev = true) (tr ++ [Log lv m])).
  { intros lv m. apply Forall_app. split; [exact Hl|repeat constructor]. }
  destruct report; simpl; try exact Hl; try apply Hadd;
    repeat (match goal with
            | |- context [match ?c with Ok _ => _ | Raise _ => _ end] => destruct c
            | |- context [if ?c then _ else _] => destruct c
            end; simpl; try exact Hl; try apply Hadd).
Qed.

Lemma process_amr_markers_logs fs sample_i common_prefix :
  Forall (fun ev => is_log ev = true)
         (snd (process_amr_markers fs sample_i common_prefix)).
Proof.
  unfold process_amr_markers.
  pose proof (load_json_report_logs fs sample_i common_prefix) as Hl.
  destruct (load_json_report fs sample_i common_prefix) as [report tr]. simpl in Hl.
  assert (Hadd : forall lv m, Forall (fun ev => is_log ev = true) (tr ++ [Log lv m])).
  { intros lv m. apply Forall_app. split; [exact Hl|repeat constructor]. }
  destruct report; simpl; try exact Hl; try apply Hadd;
    repeat (match goal with
            | |- context [match ?c with Ok _ => _ | Raise _ => _ end] => destruct c
            | |- context [if ?c then _ else _] => destruct c
            end; simpl; try exact Hl; try apply Hadd).
Qed.

Lemma process_microorganisms_failed fs sample_i common_prefix :
  (forall doc, fs (report_path sample_i common_prefix) <> Loaded doc) ->
  fst (process_microorganisms fs sample_i common_prefix) = None.
Proof.
  intros H. unfold process_microorganisms.
  pose proof (load_json_report_failed fs sample_i common_prefix H) as Hl.
  destruct (load_json_report fs sample_i common_prefix) as [report tr].
  simpl in Hl. subst report. reflexivity.
Qed.

Lemma process_amr_markers_failed fs sample_i common_prefix :
  (forall doc, fs (report_path sample_i common_prefix) <> Loaded doc) ->
  fst (process_amr_markers fs sample_i common_prefix) = None.
Proof.
  intros H. unfold process_amr_markers.
  pose proof (load_json_report_failed fs sample_i common_prefix H) as Hl.
  destruct (load_json_report fs sample_i common_prefix) as [report tr].
  simpl in Hl. subst report. reflexivity.
Qed.

(** The tables after one iteration depend on the tables before it only. *)
Lemma process_sample_tables fs common_prefix acc sample_i :
  fst (process_sample fs common_prefix acc sample_i) =
    (append_table (fst (fst acc)) (fst (process_microorganisms fs sample_i common_prefix)),
     append_table (snd (fst acc)) (fst (process_amr_markers fs sample_i common_prefix))).
Proof.
  unfold process_sample. destruct acc as [[mo amr] tr].
  destruct (process_microorganisms fs sample_i common_prefix).
  destruct (process_amr_markers fs sample_i common_prefix). reflexivity.
Qed.

Lemma process_sample_trace fs common_prefix acc sample_i :
  snd (process_sample fs common_prefix acc sample_i) =
    snd acc ++ snd (process_microorganisms fs sample_i common_prefix)
            ++ snd (process_amr_markers fs sample_i common_prefix).
Proof.
  unfold process_sample. destruct acc as [[mo amr] tr].
  destruct (process_microorganisms fs sample_i common_prefix).
  destruct (process_amr_markers fs sample_i common_prefix). reflexivity.
Qed.

Lemma fold_process_sample_tables fs common_prefix names acc acc' :
  fst acc = fst acc' ->
  fst (fold_left (process_sample fs common_prefix) names acc) =
  fst (fold_left (process_sample fs common_prefix) names acc').
Proof.
  revert acc acc'. induction names as [|s names IH]; intros acc acc' H; simpl; [exact H|].
  apply IH. rewrite !process_sample_tables, H. reflexivity.
Qed.

Lemma fold_process_sample_logs fs common_prefix names acc :
  Forall (fun ev => is_log ev = true) (snd acc) ->
  Forall (fun ev => is_log ev = true)
         (snd (fold_left (process_sample fs common_prefix) names acc)).
Proof.
  revert acc. induction names as [|s names IH]; intros acc H; simpl; [exact H|].
  apply IH. rewrite process_sample_trace.
  apply Forall_app. split; [exact H|].
  apply Forall_app. split;
    [apply process_microorganisms_logs|apply process_amr_markers_logs].
Qed.

Lemma process_samples_logs fs common_prefix names :
  Forall (fun ev => is_log ev = true) (snd (process_samples fs common_prefix names)).
Proof. apply fold_process_sample_logs. constructor. Qed.

(** C8. A sample whose report file is missing or is not valid JSON gives
    no table from either extractor (the extractors return [None], nothing
    is raised), its iteration leaves both lists of tables as they were,
    and the tables collected over all samples are those of the other
    samples, the ones after it included. *)
Theorem C8_failed_sample_is_skipped fs common_prefix before sample_i after :
  fs (report_path sample_i common_prefix) = FileNotFound \/
  fs (report_path sample_i common_prefix) = JSONDecodeError ->
  fst (process_microorganisms fs sample_i common_prefix) = None /\
  fst (process_amr_markers fs sample_i common_prefix) = None /\
  (forall acc, fst (process_sample fs common_prefix acc sample_i) = fst acc) /\
  mo_tables fs common_prefix (before ++ sample_i :: after)
    = mo_tables fs common_prefix (before ++ after) /\
  amr_tables fs common_prefix (before ++ sample_i :: after)
    = amr_tables fs common_prefix (before ++ after).
Proof.
  intros Hfail.
  assert (Hno : forall doc, fs (report_path sample_i common_prefix) <> Loaded doc).
  { intros doc Hdoc. destruct Hfail as [H|H]; rewrite H in Hdoc; discriminate. }
  pose proof (process_microorganisms_failed _ _ _ Hno) as Hmo.
  pose proof (process_amr_markers_failed _ _ _ Hno) as Hamr.
  assert (Hstep : forall acc, fst (process_sample fs common_prefix acc sample_i) = fst acc).
  { intros [[mo amr] tr]. rewrite process_sample_tables, Hmo, Hamr. reflexivity. }
  assert (Hall : fst (process_samples fs common_prefix (before ++ sample_i :: after))
                 = fst (process_samples fs common_prefix (before ++ after))).
  { unfold process_samples. rewrite !fold_left_app. simpl.
    apply fold_process_sample_tables. apply Hstep. }
  repeat split; try assumption; unfold mo_tables, amr_tables; rewrite Hall; reflexivity.
Qed.

Lemma C8_failed_sample_is_skipped_witness :
  let fs := fs_with "batch1/sample1.1.report.json" report_batch1 in
  fs (report_path "2" "batch") = FileNotFound /\
  length (concat (mo_tables fs "batch" ["2"; "1"])) = 5%nat /\
  mo_tables fs "batch" ([] ++ "2" :: ["1"]) = mo_tables fs "batch" ([] ++ ["1"]) /\
  amr_tables fs "batch" ([] ++ "2" :: ["1"]) = amr_tables fs "batch" ([] ++ ["1"]).
Proof.
  intros fs. split; [reflexivity|]. split; [reflexivity|].
  destruct (C8_failed_sample_is_skipped fs "batch" [] "2" ["1"]) as (_ & _ & _ & Hmo & Hamr);
    [left; reflexivity|].
  split; [exact Hmo|exact Hamr].
Defined.

Lemma only_logs_no_output (tr : list event) :
  Forall (fun ev => is_log ev = true) tr ->
  (forall ev, In ev tr -> is_export ev = false /\ is_print ev = false) /\
  ~ reports_failure tr.
Proof.
  intros Hlogs. rewrite List.Forall_forall in Hlogs. split.
  - intros ev Hin. specialize (Hlogs ev Hin). destruct ev; try discriminate.
    split; reflexivity.
  - intros (text & Hin & _). specialize (Hlogs _ Hin). discriminate.
Qed.

Section DriverFacts.
Variable natsorted : list string -> list string.
Variable sort_values_desc : list ra_entry -> list ra_entry.

(** C3, as the code has it.  When the samples were processed and both
    lists of tables are empty, [main] logs the error "No data could be
    processed from any sample. Exiting." (which reaches the log file) and
    returns: the trace of the run is the log calls of the loop followed
    by that one, so nothing is exported, no chart is drawn, nothing is
    moved, and nothing is printed, neither the success message nor the
    message of the fatal handler. *)
Theorem C3_no_data_returns_after_logging (env : environment) :
  let sample_names := fst (extract_sample_info natsorted (listing env)) in
  let common_prefix := snd (extract_sample_info natsorted (listing env)) in
  setup_ok env = true ->
  sample_names <> [] ->
  mo_tables (reports env) common_prefix sample_names = [] ->
  amr_tables (reports env) common_prefix sample_names = [] ->
  exists tr,
    main natsorted sort_values_desc env = Some tr /\
    tr = Log INFO DirsReady
           :: snd (process_samples (reports env) common_prefix sample_names)
           ++ [Log ERROR NoDataProcessed] /\
    reaches_log_file ERROR = true /\
    Forall (fun ev => is_log ev = true) tr /\
    (forall ev, In ev tr -> is_export ev = false /\ is_print ev = false) /\
    ~ reports_failure tr.
Proof.
  intros sample_names common_prefix Hsetup Hnames Hmo Hamr.
  exists (Log INFO DirsReady
            :: snd (process_samples (reports env) common_prefix sample_names)
            ++ [Log ERROR NoDataProcessed]).
  split.
  { unfold main, main_try. rewrite Hsetup. simpl negb. cbv iota.
    subst sample_names common_prefix. unfold mo_tables, amr_tables in Hmo, Hamr.
    destruct (extract_sample_info natsorted (listing env)) as [names prefix].
    simpl in *. destruct names as [|n names]; [congruence|]. cbn [is_nil].
    destruct (process_samples (reports env) prefix (n :: names)) as [[mo amr] tr].
    simpl in Hmo, Hamr. subst mo amr. reflexivity. }
  split; [reflexivity|]. split; [reflexivity|].
  assert (Hlogs : Forall (fun ev => is_log ev = true)
                    (Log INFO DirsReady
                     :: snd (process_samples (reports env) common_prefix sample_names)
                     ++ [Log ERROR NoDataProcessed])).
  { constructor; [reflexivity|]. apply Forall_app. split.
    - apply process_samples_logs.
    - repeat constructor. }
  split; [exact Hlogs|]. apply only_logs_no_output. exact Hlogs.
Qed.
End DriverFacts.

Lemma C3_no_data_returns_after_logging_witness :
  fst (extract_sample_info natsorted_ref (listing env_no_reports)) = ["1"; "2"] /\
  mo_tables (reports env_no_reports) "batch" ["1"; "2"] = [] /\
  amr_tables (reports env_no_reports) "batch" ["1"; "2"] = [] /\
  exists tr,
    main natsorted_ref sort_values_stable env_no_reports = Some tr /\
    (forall ev, In ev tr -> is_export ev = false /\ is_print ev = false).
Proof.
  split; [reflexivity|]. split; [reflexivity|]. split; [reflexivity|].
  destruct (C3_no_data_returns_after_logging natsorted_ref sort_values_stable env_no_reports)
    as (tr & Hmain & _ & _ & _ & Hquiet & _).
  - reflexivity.
  - discriminate.
  - reflexivity.
  - reflexivity.
  - exists tr. split; [exact Hmain|exact Hquiet].
Defined.

(** C3 as stated fails where both reports are missing: the run ends
    without a message on standard output, so no failure message distinct
    from the success message is reported. *)
Lemma C3_no_failure_message_reported :
  mo_tables (reports env_no_reports) "batch" ["1"; "2"] = [] /\
  amr_tables (reports env_no_reports) "batch" ["1"; "2"] = [] /\
  exists tr,
    main natsorted_ref sort_values_stable env_no_reports = Some tr /\
    ~ reports_failure tr /\
    ~ In (Print fatal_message) tr.
Proof.
  split; [reflexivity|]. split; [reflexivity|].
  eexists. split; [vm_compute; reflexivity|].
  assert (Hlogs : Forall (fun ev => is_log ev = true)
            [Log INFO DirsReady;
             Log ERROR (ReportNotFound "1" "batch1/sample1.1.report.json");
             Log ERROR (ReportNotFound "1" "batch1/sample1.1.report.json");
             Log ERROR (ReportNotFound "2" "batch2/sample2.2.report.json");
             Log ERROR (ReportNotFound "2" "batch2/sample2.2.report.json");
             Log ERROR NoDataProcessed]).
  { repeat constructor. }
  split.
  - apply only_logs_no_output. exact Hlogs.
  - intros Hin. rewrite List.Forall_forall in Hlogs. specialize (Hlogs _ Hin). discriminate.
Qed.

(** ** The aggregator and the relative abundance calculator *)

Lemma unique_from_In (seen l : list string) (x : string) :
  In x (unique_from seen l) <-> In x l /\ existsb (String.eqb x) seen = false.
Proof.
  revert seen. induction l as [|y l IH]; intros seen; simpl.
  - tauto.
  - destruct (existsb (String.eqb y) seen) eqn:Hy.
    + rewrite IH. split.
      * intros [Hin Hx]. tauto.
      * intros [[->|Hin] Hx]; [congruence|tauto].
    + simpl. rewrite IH. simpl.
      destruct (String.eqb_spec x y) as [->|Hne]; simpl.
      * split; [intros _; tauto|intros _; left; reflexivity].
      * split.
        -- intros [->|[Hin Hx]]; [congruence|tauto].
        -- intros [[->|Hin] Hx]; [congruence|tauto].
Qed.

Lemma unique_In (l : list string) (x : string) : In x (unique l) <-> In x l.
Proof. unfold unique. rewrite unique_from_In. simpl. tauto. Qed.

Lemma has_rows_In (df : list (MO.row Z)) (s : string) :
  has_rows df s = true <-> In s (map MO.Sample df).
Proof.
  unfold has_rows. rewrite existsb_exists, in_map_iff. split.
  - intros (r & Hr & Heq). apply String.eqb_eq in Heq. eauto.
  - intros (r & Heq & Hr). exists r. split; [assumption|]. apply String.eqb_eq. assumption.
Qed.

Lemma has_rows_false (df : list (MO.row Z)) (s : string) :
  has_rows df s = false -> rows_of_sample s df = [].
Proof.
  unfold has_rows, rows_of_sample. induction df as [|r df IH]; simpl; [reflexivity|].
  destruct (String.eqb (MO.Sample r) s); simpl; [discriminate|exact IH].
Qed.

Lemma rows_of_sample_In (df : list (MO.row Z)) (s : string) (r : MO.row Z) :
  In r (rows_of_sample s df) <-> In r df /\ MO.Sample r = s.
Proof.
  unfold rows_of_sample. rewrite filter_In, String.eqb_eq. tauto.
Qed.

Lemma present_rows_In (df : list (MO.row Z)) (r : MO.row Z) :
  In r (present_rows df) <-> In r df /\ py_eq_True (MO.predictedPresent r) = true.
Proof. unfold present_rows. apply filter_In. Qed.

(** The guard lets a total through exactly when it is in the map and
    strictly positive. *)
Lemma usable_total_Some (o : option Z) (t : Z) :
  usable_total o = Some t <-> o = Some t /\ 0 < t.
Proof.
  unfold usable_total. destruct o as [t'|]; [|split; [discriminate|intros [H _]; discriminate]].
  destruct (Z.eqb_spec t' 0) as [->|Hne]; simpl.
  - split; [discriminate|]. intros [H Hpos]. injection H as <-. lia.
  - destruct (Z.ltb_spec 0 t') as [Hpos|Hneg].
    + split; [intros H; injection H as <-; split; [reflexivity|assumption]|].
      intros [H _]. exact H.
    + split; [discriminate|]. intros [H Hpos]. injection H as <-. lia.
Qed.

Lemma usable_total_None (o : option Z) :
  o = None \/ o = Some 0 -> usable_total o = None.
Proof. intros [->| ->]; reflexivity. Qed.

Section CalculatorFacts.
Variable sort_values_desc : list ra_entry -> list ra_entry.

Lemma plot_events (df : list (MO.row Z)) (totals : gmap string Z) (ev : event) :
  In ev (snd (plot_relative_abundance sort_values_desc df totals)) <->
  exists s, has_present df s = true /\
            In ev (snd (plot_sample sort_values_desc (present_rows df) totals s)).
Proof.
  unfold plot_relative_abundance. simpl. rewrite in_flat_map.
  split; intros (s & Hs & Hev); exists s; split; try assumption.
  - apply has_rows_In. apply unique_In. exact Hs.
  - apply unique_In. apply has_rows_In. exact Hs.
Qed.

Lemma plot_bar (df : list (MO.row Z)) (totals : gmap string Z)
    (fn s : string) (bars : list ra_entry) :
  In (SaveBar fn s bars) (snd (plot_relative_abundance sort_values_desc df totals)) <->
  has_present df s = true /\ fn = bar_filename s /\
  exists t, totals !! s = Some t /\ 0 < t /\
    bars = sort_values_desc
             (map (with_relative_abundance t) (rows_of_sample s (present_rows df))).
Proof.
  rewrite plot_events. unfold plot_sample. split.
  - intros (s' & Hs' & Hev).
    destruct (usable_total (totals !! s')) as [t|] eqn:Ht; simpl in Hev.
    + destruct Hev as [Hev|[]]. injection Hev as <- <- <-.
      apply usable_total_Some in Ht as [Ht Hpos]. eauto 10.
    + destruct Hev as [Hev|[]]. discriminate.
  - intros (Hs & -> & t & Ht & Hpos & ->). exists s. split; [assumption|].
    assert (Hu : usable_total (totals !! s) = Some t) by (apply usable_total_Some; auto).
    rewrite Hu. left. reflexivity.
Qed.

Lemma plot_warning (df : list (MO.row Z)) (totals : gmap string Z) (s : string) :
  logged WARNING (SkippingRelativeAbundance s)
         (snd (plot_relative_abundance sort_values_desc df totals)) <->
  has_present df s = true /\ usable_total (totals !! s) = None.
Proof.
  unfold logged. rewrite plot_events. unfold plot_sample. split.
  - intros (s' & Hs' & Hev).
    destruct (usable_total (totals !! s')) as [t|] eqn:Ht; simpl in Hev.
    + destruct Hev as [Hev|[]]. discriminate.
    + destruct Hev as [Hev|[]]. injection Hev as ->. auto.
  - intros (Hs & Hu). exists s. split; [assumption|]. rewrite Hu. left. reflexivity.
Qed.

(** C6, as the code has it.  The loop of the calculator runs over the
    samples that have an organism predicted present.  For such a sample
    whose total is missing from the map or is zero, no chart is produced
    and [logger.warning] is called for it; and every chart that is
    produced was computed with a total that is in the map and strictly
    positive, so nothing is ever divided by zero. *)
Theorem C6_unusable_total_is_skipped (df : list (MO.row Z))
    (totals : gmap string Z) (s : string) :
  has_present df s = true ->
  totals !! s = None \/ totals !! s = Some 0 ->
  let tr := snd (plot_relative_abundance sort_values_desc df totals) in
  (forall fn bars, ~ In (SaveBar fn s bars) tr) /\
  logged WARNING (SkippingRelativeAbundance s) tr /\
  (forall fn s' bars, In (SaveBar fn s' bars) tr ->
     exists t, totals !! s' = Some t /\ 0 < t /\
       bars = sort_values_desc
                (map (with_relative_abundance t)
                     (rows_of_sample s' (present_rows df)))).
Proof.
  intros Hs Htot tr. subst tr. split; [|split].
  - intros fn bars Hin. apply plot_bar in Hin as (_ & _ & t & Ht & Hpos & _).
    destruct Htot as [H|H]; rewrite H in Ht; [discriminate|].
    injection Ht as <-. lia.
  - apply plot_warning. split; [assumption|]. apply usable_total_None. assumption.
  - intros fn s' bars Hin. apply plot_bar in Hin as (_ & _ & t & Ht & Hpos & Hbars).
    eauto.
Qed.

Hypothesis sort_rearranges : rearranges sort_values_desc.

End CalculatorFacts.

(** *** The two sort instances meet the contract *)

Lemma insert_desc_perm (e : ra_entry) (l : list ra_entry) :
  Permutation (insert_desc e l) (e :: l).
Proof.
  induction l as [|x l IH]; simpl; [reflexivity|].
  destruct (Qle_bool (relativeAbundance x) (relativeAbundance e)); [reflexivity|].
  rewrite IH. apply perm_swap.
Qed.

Lemma insert_desc_sorted (e : ra_entry) (l : list ra_entry) :
  descending l -> descending (insert_desc e l).
Proof.
  unfold descending. induction l as [|x l IH]; intros Hl; simpl.
  - constructor; constructor.
  - apply StronglySorted_inv in Hl as [Hl Hx].
    destruct (Qle_bool (relativeAbundance x) (relativeAbundance e)) eqn:Hle.
    + apply Qle_bool_iff in Hle. constructor.
      * constructor; assumption.
      * constructor; [exact Hle|].
        eapply List.Forall_impl; [|exact Hx]. intros y Hy. unfold ra_ge in *.
        eapply Qle_trans; eassumption.
    + constructor; [apply IH; assumption|].
      eapply Permutation_Forall; [symmetry; apply insert_desc_perm|].
      constructor; [|assumption]. unfold ra_ge.
      destruct (Qlt_le_dec (relativeAbundance e) (relativeAbundance x)) as [Hlt|Hge].
      * apply Qlt_le_weak. exact Hlt.
      * apply Qle_bool_iff in Hge. congruence.
Qed.

Lemma sort_values_stable_rearranges : rearranges sort_values_stable.
Proof.
  intros l. unfold sort_values_stable. induction l as [|e l IH]; simpl; [reflexivity|].
  rewrite insert_desc_perm. apply perm_skip. exact IH.
Qed.

Lemma sort_values_stable_descending : sorts_descending sort_values_stable.
Proof.
  intros l. unfold sort_values_stable. induction l as [|e l IH]; simpl.
  - constructor.
  - apply insert_desc_sorted. exact IH.
Qed.

Lemma sort_values_ties_reversed_rearranges : rearranges sort_values_ties_reversed.
Proof.
  intros l. unfold sort_values_ties_reversed.
  eapply Permutation_trans; [apply sort_values_stable_rearranges|].
  symmetry. apply Permutation_rev.
Qed.

Lemma sort_values_ties_reversed_descending : sorts_descending sort_values_ties_reversed.
Proof. intros l. apply sort_values_stable_descending. Qed.

(** [logger.warning] is called, and the threshold given to [basicConfig]
    keeps warning-level records out of the log file; error-level records
    pass. *)
Lemma warning_below_threshold :
  reaches_log_file WARNING = false /\ reaches_log_file ERROR = true.
Proof. split; reflexivity. Qed.

Lemma C6_unusable_total_is_skipped_witness :
  has_present df_zero_present "sample1" = true /\
  total_reads_dict df_zero_present !! "sample1" = Some 0 /\
  let tr := snd (plot_relative_abundance sort_values_stable df_zero_present
                   (total_reads_dict df_zero_present)) in
  (forall fn bars, ~ In (SaveBar fn "sample1" bars) tr) /\
  logged WARNING (SkippingRelativeAbundance "sample1") tr.
Proof.
  split; [reflexivity|]. split; [reflexivity|].
  destruct (C6_unusable_total_is_skipped sort_values_stable df_zero_present
              (total_reads_dict df_zero_present) "sample1") as (Hnone & Hwarn & _).
  - reflexivity.
  - right. reflexivity.
  - split; [exact Hnone|exact Hwarn].
Defined.

(** C6 as stated fails for a sample none of whose organisms is predicted
    present: its total is zero, and the calculator never looks at it, so
    no warning is emitted. *)
Lemma C6_no_warning_without_present_organism :
  has_rows df_silent "sample1" = true /\
  total_reads_dict df_silent !! "sample1" = Some 0 /\
  plot_relative_abundance sort_values_stable df_silent (total_reads_dict df_silent)
    = ([], []) /\
  ~ logged WARNING (SkippingRelativeAbundance "sample1")
      (snd (plot_relative_abundance sort_values_stable df_silent
              (total_reads_dict df_silent))).
Proof.
  split; [reflexivity|]. split; [reflexivity|]. split; [reflexivity|].
  intros Hw. apply plot_warning in Hw as [Hp _]. discriminate.
Qed.



(** *** Totals and percentages *)

Lemma total_reads_dict_lookup (df : list (MO.row Z)) (s : string) :
  total_reads_dict df !! s =
    if has_rows df s then Some (sum_counts (rows_of_sample s df)) else None.
Proof.
  induction df as [|r df IH]; [reflexivity|].
  change (total_reads_dict (r :: df))
    with (<[MO.Sample r := default 0 (total_reads_dict df !! MO.Sample r)
                           + MO.alignedReadCount r]> (total_reads_dict df)).
  unfold has_rows, rows_of_sample in *. simpl.
  destruct (String.eqb_spec (MO.Sample r) s) as [Heq|Hne]; simpl.
  - subst s. rewrite lookup_insert_eq, IH.
    destruct (existsb _ df) eqn:Hex; simpl; [f_equal; lia|].
    fold (has_rows df (MO.Sample r)) in Hex. apply has_rows_false in Hex.
    unfold rows_of_sample in Hex. rewrite Hex. simpl. f_equal. lia.
  - rewrite lookup_insert_ne by assumption. exact IH.
Qed.

Lemma percentage_formula (a t : Z) :
  (inject_Z a / inject_Z t * 100 == 100 * inject_Z a / inject_Z t)%Q.
Proof. unfold Qdiv. ring. Qed.

Section TotalsFacts.
Variable sort_values_desc : list ra_entry -> list ra_entry.
Hypothesis sort_rearranges : rearranges sort_values_desc.

End TotalsFacts.


(** * Further properties of the code *)

(** ** Discovery *)

Lemma sample_dirs_In (listing : list (string * bool)) (d : string) :
  In d (sample_dirs listing) <->
  In (d, true) listing /\ String.prefix "Results" d = false.
Proof.
  unfold sample_dirs. rewrite in_map_iff. split.
  - intros ([name isdir] & <- & Hin). apply filter_In in Hin as [Hin Hok].
    simpl in *. apply andb_true_iff in Hok as [-> Hres].
    apply negb_true_iff in Hres. auto.
  - intros [Hin Hres]. exists (d, true). split; [reflexivity|].
    apply filter_In. split; [assumption|]. simpl. rewrite Hres. reflexivity.
Qed.

Lemma sample_dirs_NoDup (listing : list (string * bool)) :
  List.NoDup (map fst listing) -> List.NoDup (sample_dirs listing).
Proof.
  unfold sample_dirs. induction listing as [|[name isdir] listing IH]; simpl; intros Hnd.
  - constructor.
  - apply NoDup_cons_iff in Hnd as [Hnot Hnd].
    destruct (isdir && negb (String.prefix "Results" name)); simpl; [|auto].
    apply NoDup_cons_iff. split; [|auto].
    intros Hin. apply Hnot. apply in_map_iff in Hin as (x & Hx & Hin).
    apply filter_In in Hin as [Hin _]. apply in_map_iff. eauto.
Qed.

Lemma map_inj_NoDup {A B : Type} (f : A -> B) (l : list A) :
  List.NoDup (map f l) -> List.NoDup l.
Proof.
  induction l as [|x l IH]; simpl; intros H; [constructor|].
  apply NoDup_cons_iff in H as [Hnot Hnd]. apply NoDup_cons_iff.
  split; [|auto]. intros Hin. apply Hnot. apply in_map. exact Hin.
Qed.

Lemma common_prefix2_max (p s t a b : string) :
  s = p +:+ a -> t = p +:+ b -> exists r, common_prefix2 s t = p +:+ r.
Proof.
  revert s t. induction p as [|c p IH]; intros s t -> ->.
  - eexists. reflexivity.
  - change (exists r, common_prefix2 (String c (p +:+ a)) (String c (p +:+ b))
                      = String c (p +:+ r)).
    simpl. rewrite Ascii.eqb_refl.
    destruct (IH (p +:+ a) (p +:+ b) eq_refl eq_refl) as [r Hr].
    exists r. rewrite Hr. reflexivity.
Qed.

Lemma fold_common_prefix2_max (p : string) (rest : list string) (s : string) :
  (exists a, s = p +:+ a) ->
  (forall x, In x rest -> exists a, x = p +:+ a) ->
  exists r, fold_left common_prefix2 rest s = p +:+ r.
Proof.
  revert s. induction rest as [|y rest IH]; intros s Hs Hrest; simpl.
  - destruct Hs as [a ->]. eauto.
  - apply IH.
    + destruct Hs as [a Ha]. destruct (Hrest y (or_introl eq_refl)) as [b Hb].
      eapply common_prefix2_max; eassumption.
    + intros x Hx. apply Hrest. right. exact Hx.
Qed.

(** [commonprefix] extends every common prefix of a non-empty list. *)
Lemma commonprefix_max (p : string) (m : list string) :
  m <> [] ->
  (forall x, In x m -> exists a, x = p +:+ a) ->
  exists r, commonprefix m = p +:+ r.
Proof.
  destruct m as [|s rest]; intros Hne Hall; [congruence|].
  simpl. apply fold_common_prefix2_max.
  - apply Hall. left. reflexivity.
  - intros x Hx. apply Hall. right. exact Hx.
Qed.

Lemma string_app_length (a b : string) :
  String.length (a +:+ b) = (String.length a + String.length b)%nat.
Proof.
  induction a as [|c a IH]; [reflexivity|].
  change (S (String.length (a +:+ b)) = S (String.length a + String.length b)).
  rewrite IH. reflexivity.
Qed.

Section DiscoveryMore.
Variable natsorted : list string -> list string.
Hypothesis natsorted_perm : forall l, Permutation (natsorted l) l.

(** The identifiers put back on the prefix are the sample directories in
    sorted order; a name is among them exactly when the listing has it as
    a directory and it does not start with [Results] (so [Results_old] is
    left out as well); files are never samples. *)
Theorem discovery_returns_the_sample_directories (listing : list (string * bool)) :
  let sample_names := fst (extract_sample_info natsorted listing) in
  let common_prefix := snd (extract_sample_info natsorted listing) in
  map (fun sample_i => common_prefix +:+ sample_i) sample_names
    = natsorted (sample_dirs listing) /\
  length sample_names = length (sample_dirs listing) /\
  (forall d, In d (map (fun sample_i => common_prefix +:+ sample_i) sample_names) <->
             In (d, true) listing /\ String.prefix "Results" d = false) /\
  (forall d, In (d, false) listing -> ~ In (d, true) listing ->
             ~ In d (map (fun sample_i => common_prefix +:+ sample_i) sample_names)).
Proof.
  intros sample_names common_prefix.
  pose proof (extract_sample_info_dirs natsorted listing) as Hdirs.
  fold sample_names common_prefix in Hdirs.
  assert (Hiff : forall d,
             In d (map (fun sample_i => common_prefix +:+ sample_i) sample_names) <->
             In (d, true) listing /\ String.prefix "Results" d = false).
  { intros d. rewrite Hdirs, <- sample_dirs_In. split; intros H.
    - eapply Permutation_in; [apply natsorted_perm|exact H].
    - eapply Permutation_in; [symmetry; apply natsorted_perm|exact H]. }
  split; [exact Hdirs|]. split.
  - rewrite <- (Permutation_length (natsorted_perm (sample_dirs listing))), <- Hdirs.
    rewrite length_map. reflexivity.
  - split; [exact Hiff|]. intros d _ Hnot Hin. apply Hiff in Hin as [Hin _]. auto.
Qed.

(** Directory names are distinct, so the identifiers are distinct, and so
    are the sample labels of the rows. *)
Theorem distinct_directories_give_distinct_labels (listing : list (string * bool)) :
  List.NoDup (map fst listing) ->
  let sample_names := fst (extract_sample_info natsorted listing) in
  List.NoDup sample_names /\ List.NoDup (map sample_label sample_names).
Proof.
  intros Hnd sample_names.
  assert (Hnames : List.NoDup sample_names).
  { apply (map_inj_NoDup
             (fun sample_i => snd (extract_sample_info natsorted listing) +:+ sample_i)).
    unfold sample_names. rewrite extract_sample_info_dirs.
    eapply Permutation_NoDup; [symmetry; apply natsorted_perm|].
    apply sample_dirs_NoDup. exact Hnd. }
  split; [exact Hnames|].
  clear Hnd. induction Hnames as [|i l Hnot Hl IH]; simpl; constructor; [|exact IH].
  intros Hin. apply in_map_iff in Hin as (j & Heq & Hj).
  apply sample_label_inj in Heq as ->. contradiction.
Qed.

(** The prefix is the longest one: the identifiers never all begin with
    the same character. *)
Theorem identifiers_share_no_first_character (listing : list (string * bool))
    (c : ascii) :
  let sample_names := fst (extract_sample_info natsorted listing) in
  sample_names <> [] ->
  ~ Forall (fun sample_i => exists r, sample_i = String c r) sample_names.
Proof.
  intros sample_names Hne Hall.
  set (common_prefix := snd (extract_sample_info natsorted listing)).
  set (dirs := natsorted (sample_dirs listing)).
  assert (Hdirs : map (fun sample_i => common_prefix +:+ sample_i) sample_names = dirs)
    by apply extract_sample_info_dirs.
  assert (Hprefix : common_prefix = commonprefix dirs) by reflexivity.
  assert (Hdne : dirs <> []).
  { intros Hnil. rewrite Hnil in Hdirs. apply map_eq_nil in Hdirs. contradiction. }
  destruct (commonprefix_max (common_prefix +:+ String c "") dirs Hdne) as [r Hr].
  { intros d Hd. rewrite <- Hdirs in Hd. apply in_map_iff in Hd as (i & <- & Hi).
    rewrite List.Forall_forall in Hall. destruct (Hall i Hi) as [a ->].
    exists a. rewrite app_string_assoc. reflexivity. }
  rewrite <- Hprefix in Hr. apply (f_equal String.length) in Hr.
  rewrite !string_app_length in Hr. simpl in Hr. lia.
Qed.
End DiscoveryMore.

(** ** The extractors, entry by entry *)

Lemma py_round2_Ok_iff (v : pyval) :
  (exists w, py_round2 v = Ok w) <-> is_number v = true.
Proof.
  destruct v; simpl; split; intros H; try discriminate; try reflexivity; eauto;
    destruct H as [w H]; discriminate.
Qed.

Lemma py_gt_Ok_iff (v : pyval) (k : Z) :
  (exists w, py_gt v k = Ok w) <-> is_number v = true.
Proof.
  destruct v; simpl; split; intros H; try discriminate; try reflexivity; eauto;
    destruct H as [w H]; discriminate.
Qed.

Lemma item_predictedPresent_Ok_iff (fields : list (string * pyval)) :
  (exists pp, item_predictedPresent (VDict fields) = Ok pp) <->
  (assoc "explifyInterpretation" fields = None \/
   exists ei, assoc "explifyInterpretation" fields = Some (VDict ei)).
Proof.
  unfold item_predictedPresent. simpl.
  destruct (assoc "explifyInterpretation" fields) as [v|]; simpl.
  - destruct v; simpl; split;
      try (intros [pp H]; discriminate);
      try (intros [H|[ei H]]; discriminate).
    + intros _. right. eauto.
    + intros _. eauto.
  - split; [intros _; left; reflexivity|intros _; eauto].
Qed.

(** An entry gives a row exactly when it is an object, its
    [explifyInterpretation] is absent or an object, [ani] and [rpkm] are
    absent or numbers, and [alignedReadCount] is absent or a number or is
    not looked at because [predictedPresent] is truthy.  The text fields
    are never a reason to fail. *)
Theorem entry_gives_a_row_iff (sample_i : string) (item : pyval) :
  (exists r, mo_row sample_i item = Ok r) <->
  exists fields pp,
    item = VDict fields /\
    item_predictedPresent item = Ok pp /\
    is_number (default (VInt 0) (assoc "ani" fields)) = true /\
    is_number (default (VInt 0) (assoc "rpkm" fields)) = true /\
    (truthy pp = true \/
     is_number (default (VInt 0) (assoc "alignedReadCount" fields)) = true).
Proof.
  split.
  - intros [r H]. destruct item as [| | | | | |fields]; try discriminate.
    exists fields. unfold mo_row in H.
    destruct (item_predictedPresent (VDict fields)) as [pp|e] eqn:Hpp;
      simpl in H; [|discriminate].
    exists pp. split; [reflexivity|]. split; [reflexivity|].
    destruct (py_round2 (default (VInt 0) (assoc "ani" fields))) as [a|e] eqn:Ha;
      simpl in H; [|discriminate].
    destruct (py_round2 (default (VInt 0) (assoc "rpkm" fields))) as [b|e] eqn:Hb;
      simpl in H; [|discriminate].
    split; [apply py_round2_Ok_iff; eauto|]. split; [apply py_round2_Ok_iff; eauto|].
    destruct (truthy pp); [left; reflexivity|right].
    destruct (py_gt (default (VInt 0) (assoc "alignedReadCount" fields)) 5)
      as [g|e] eqn:Hg; simpl in H; [|discriminate].
    apply (py_gt_Ok_iff _ 5). eauto.
  - intros (fields & pp & -> & Hpp & Ha & Hb & Hc).
    apply py_round2_Ok_iff in Ha as [a Ha]. apply py_round2_Ok_iff in Hb as [b Hb].
    unfold mo_row. rewrite Hpp. simpl. rewrite Ha. simpl. rewrite Hb. simpl.
    destruct (truthy pp) eqn:Htr.
    + simpl. eauto.
    + destruct Hc as [Hc|Hc]; [discriminate|].
      apply (py_gt_Ok_iff _ 5) in Hc as [g Hg]. rewrite Hg. simpl. eauto.
Qed.

Lemma entry_gives_a_row_iff_witness :
  (exists r, mo_row "1" (VDict [("name", VStr "Candida albicans");
                                ("alignedReadCount", VNone);
                                ("explifyInterpretation",
                                 VDict [("predictedPresent", VBool true)])]) = Ok r) /\
  ~ (exists r, mo_row "1" (VDict [("name", VStr "Candida albicans");
                                  ("alignedReadCount", VNone)]) = Ok r).
Proof.
  split.
  - apply (entry_gives_a_row_iff "1"). eexists. exists (VBool true).
    split; [reflexivity|]. split; [reflexivity|]. split; [reflexivity|].
    split; [reflexivity|]. left. reflexivity.
  - intros H. apply (entry_gives_a_row_iff "1") in H
      as (fields & pp & Hitem & Hpp & _ & _ & Hc).
    injection Hitem as <-. injection Hpp as <-.
    destruct Hc as [Hc|Hc]; discriminate.
Defined.

(** The fields of a row are those of its entry: the text fields default to
    [None], a number without decimals is kept as it is by [round], and a
    float is replaced by [round2] of it. *)
Theorem row_fields_of_entry (sample_i : string) (fields : list (string * pyval))
    (r : MO.row pyval) :
  mo_row sample_i (VDict fields) = Ok r ->
  MO.Sample r = "sample" +:+ sample_i /\
  MO.Name r = default VNone (assoc "name" fields) /\
  MO.class r = default VNone (assoc "class" fields) /\
  MO.phenotypicGroup r = default VNone (assoc "phenotypicGroup" fields) /\
  MO.alignedReadCount r = default (VInt 0) (assoc "alignedReadCount" fields) /\
  py_round2 (default (VInt 0) (assoc "ani" fields)) = Ok (MO.ani r) /\
  py_round2 (default (VInt 0) (assoc "rpkm" fields)) = Ok (MO.rpkm r) /\
  (assoc "ani" fields = None -> MO.ani r = VInt 0) /\
  (forall n, assoc "ani" fields = Some (VInt n) -> MO.ani r = VInt n) /\
  (forall q, assoc "ani" fields = Some (VFloat q) -> MO.ani r = VFloat (round2 q)).
Proof.
  intros H. unfold mo_row in H.
  destruct (item_predictedPresent (VDict fields)) as [pp|e]; simpl in H; [|discriminate].
  destruct (py_round2 (default (VInt 0) (assoc "ani" fields))) as [a|e] eqn:Ha;
    simpl in H; [|discriminate].
  destruct (py_round2 (default (VInt 0) (assoc "rpkm" fields))) as [b|e] eqn:Hb;
    simpl in H; [|discriminate].
  destruct (if truthy pp then _ else _) as [presence|e]; simpl in H; [|discriminate].
  injection H as <-. simpl.
  repeat split.
  - intros Hnone. rewrite Hnone in Ha. simpl in Ha. injection Ha as <-. reflexivity.
  - intros n Hn. rewrite Hn in Ha. simpl in Ha. injection Ha as <-. reflexivity.
  - intros q Hq. rewrite Hq in Ha. simpl in Ha. injection Ha as <-. reflexivity.
Qed.

Lemma row_fields_of_entry_witness :
  exists r,
    mo_row "1" (organism "Escherichia coli" 80 true) = Ok r /\
    MO.Name r = VStr "Escherichia coli" /\
    MO.class r = VNone /\
    MO.ani r = VFloat (99 # 100).
Proof.
  eexists. split; [reflexivity|].
  destruct (row_fields_of_entry "1"
              [("name", VStr "Escherichia coli"); ("alignedReadCount", VInt 80);
               ("ani", VFloat (9912 # 10000)); ("rpkm", VFloat (25 # 2));
               ("explifyInterpretation", VDict [("predictedPresent", VBool true)])]
              _ eq_refl) as (_ & Hname & Hclass & _ & _ & _ & _ & _ & _ & Hani).
  split; [exact Hname|]. split; [exact Hclass|]. apply (Hani (9912 # 10000)%Q). reflexivity.
Defined.

(** ** The extractors, sample by sample *)

Lemma for_each_length {A B : Type} (f : A -> result B) (l : list A) (ys : list B) :
  for_each f l = Ok ys -> length ys = length l.
Proof.
  intros H. apply for_each_Forall2 in H. induction H; simpl; congruence.
Qed.

(** What [process_microorganisms] does with a report that is an object. *)
Lemma process_microorganisms_object fs sample_i common_prefix ritems :
  fs (report_path sample_i common_prefix) = Loaded (VDict ritems) ->
  process_microorganisms fs sample_i common_prefix =
    match target_list (VDict ritems) "microorganisms" with
    | Raise e => (None, [Log ERROR (MicroorganismError sample_i e)])
    | Ok trmo =>
        if negb (truthy trmo)
        then (None, [Log WARNING (NoMicroorganismData sample_i)])
        else match (items <- py_iter trmo ;; for_each (mo_row sample_i) items) with
             | Ok data_rows => (Some data_rows, [])
             | Raise e => (None, [Log ERROR (MicroorganismError sample_i e)])
             end
    end.
Proof.
  intros Hfs. unfold process_microorganisms, load_json_report. rewrite Hfs.
  reflexivity.
Qed.

Lemma process_amr_markers_object fs sample_i common_prefix ritems :
  fs (report_path sample_i common_prefix) = Loaded (VDict ritems) ->
  process_amr_markers fs sample_i common_prefix =
    match target_list (VDict ritems) "amrMarkers" with
    | Raise e => (None, [Log ERROR (AmrError sample_i e)])
    | Ok tramr =>
        if negb (truthy tramr)
        then (None, [Log WARNING (NoAmrData sample_i)])
        else match (items <- py_iter tramr ;; for_each (amr_row sample_i) items) with
             | Ok data_rows => (Some data_rows, [])
             | Raise e => (None, [Log ERROR (AmrError sample_i e)])
             end
    end.
Proof.
  intros Hfs. unfold process_amr_markers, load_json_report. rewrite Hfs.
  reflexivity.
Qed.

(** Extraction is all or nothing.  A table is returned exactly when the
    report was loaded, the microorganism list is a non-empty list and
    every entry gives its row; the table then has one row per entry, in
    the order of the list, and nothing is logged.  One entry that raises
    is enough for the sample to have no table. *)
Theorem microorganism_table_is_all_or_nothing fs sample_i common_prefix :
  (forall df,
      fst (process_microorganisms fs sample_i common_prefix) = Some df <->
      exists report items,
        fs (report_path sample_i common_prefix) = Loaded report /\
        target_list report "microorganisms" = Ok (VList items) /\
        items <> [] /\
        for_each (mo_row sample_i) items = Ok df) /\
  (forall df,
      fst (process_microorganisms fs sample_i common_prefix) = Some df ->
      df <> [] /\ snd (process_microorganisms fs sample_i common_prefix) = []) /\
  (forall items df,
      for_each (mo_row sample_i) items = Ok df ->
      length df = length items /\
      Forall2 (fun item r => mo_row sample_i item = Ok r) items df) /\
  (forall report items item,
      fs (report_path sample_i common_prefix) = Loaded report ->
      target_list report "microorganisms" = Ok (VList items) ->
      In item items ->
      (exists e, mo_row sample_i item = Raise e) ->
      fst (process_microorganisms fs sample_i common_prefix) = None).
Proof.
  assert (Hback : forall df report items,
             fs (report_path sample_i common_prefix) = Loaded report ->
             target_list report "microorganisms" = Ok (VList items) ->
             items <> [] ->
             for_each (mo_row sample_i) items = Ok df ->
             process_microorganisms fs sample_i common_prefix = (Some df, [])).
  { intros df report items Hfs Ht Hne Hrows.
    destruct (target_list_Ok _ _ _ Ht) as [ritems ->].
    rewrite (process_microorganisms_object _ _ _ _ Hfs), Ht.
    destruct items as [|i items]; [congruence|].
    cbn [truthy negb py_iter bind]. rewrite Hrows. reflexivity. }
  assert (Hforth : forall df,
             fst (process_microorganisms fs sample_i common_prefix) = Some df ->
             exists report items,
               fs (report_path sample_i common_prefix) = Loaded report /\
               target_list report "microorganisms" = Ok (VList items) /\
               items <> [] /\
               for_each (mo_row sample_i) items = Ok df).
  { intros df H.
    destruct (process_microorganisms_Some _ _ _ _ H) as (report & items & Hfs & Ht & _).
    exists report, items. split; [assumption|]. split; [assumption|].
    destruct (target_list_Ok _ _ _ Ht) as [ritems ->].
    rewrite (process_microorganisms_object _ _ _ _ Hfs), Ht in H.
    destruct items as [|i items]; [discriminate|]. split; [discriminate|].
    cbn [truthy negb py_iter bind] in H.
    destruct (for_each (mo_row sample_i) (i :: items)); [|discriminate].
    simpl in H. congruence. }
  split; [|split; [|split]].
  - intros df. split; [apply Hforth|].
    intros (report & items & Hfs & Ht & Hne & Hrows).
    rewrite (Hback df report items); auto.
  - intros df H. destruct (Hforth df H) as (report & items & Hfs & Ht & Hne & Hrows).
    rewrite (Hback df report items); auto. split; [|reflexivity].
    intros ->. apply for_each_length in Hrows. destruct items; [congruence|discriminate].
  - intros items df Hrows. split; [eapply for_each_length; eassumption|].
    apply for_each_Forall2. exact Hrows.
  - intros report items item Hfs Ht Hin Hraise.
    destruct (for_each_raises (mo_row sample_i) items item Hin Hraise) as [e He].
    destruct (target_list_Ok _ _ _ Ht) as [ritems ->].
    rewrite (process_microorganisms_object _ _ _ _ Hfs), Ht.
    destruct items as [|i items]; [destruct Hin|].
    cbn [truthy negb py_iter bind]. rewrite He. reflexivity.
Qed.

(** The same for the AMR markers. *)
Theorem amr_table_is_all_or_nothing fs sample_i common_prefix :
  (forall df,
      fst (process_amr_markers fs sample_i common_prefix) = Some df <->
      exists report items,
        fs (report_path sample_i common_prefix) = Loaded report /\
        target_list report "amrMarkers" = Ok (VList items) /\
        items <> [] /\
        for_each (amr_row sample_i) items = Ok df) /\
  (forall df,
      fst (process_amr_markers fs sample_i common_prefix) = Some df ->
      df <> [] /\ snd (process_amr_markers fs sample_i common_prefix) = []) /\
  (forall items df,
      for_each (amr_row sample_i) items = Ok df ->
      length df = length items /\
      Forall2 (fun item r => amr_row sample_i item = Ok r) items df) /\
  (forall report items item,
      fs (report_path sample_i common_prefix) = Loaded report ->
      target_list report "amrMarkers" = Ok (VList items) ->
      In item items ->
      (exists e, amr_row sample_i item = Raise e) ->
      fst (process_amr_markers fs sample_i common_prefix) = None).
Proof.
  assert (Hback : forall df report items,
             fs (report_path sample_i common_prefix) = Loaded report ->
             target_list report "amrMarkers" = Ok (VList items) ->
             items <> [] ->
             for_each (amr_row sample_i) items = Ok df ->
             process_amr_markers fs sample_i common_prefix = (Some df, [])).
  { intros df report items Hfs Ht Hne Hrows.
    destruct (target_list_Ok _ _ _ Ht) as [ritems ->].
    rewrite (process_amr_markers_object _ _ _ _ Hfs), Ht.
    destruct items as [|i items]; [congruence|].
    cbn [truthy negb py_iter bind]. rewrite Hrows. reflexivity. }
  assert (Hforth : forall df,
             fst (process_amr_markers fs sample_i common_prefix) = Some df ->
             exists report items,
               fs (report_path sample_i common_prefix) = Loaded report /\
               target_list report "amrMarkers" = Ok (VList items) /\
               items <> [] /\
               for_each (amr_row sample_i) items = Ok df).
  { intros df H.
    destruct (process_amr_markers_Some _ _ _ _ H) as (report & items & Hfs & Ht & _).
    exists report, items. split; [assumption|]. split; [assumption|].
    destruct (target_list_Ok _ _ _ Ht) as [ritems ->].
    rewrite (process_amr_markers_object _ _ _ _ Hfs), Ht in H.
    destruct items as [|i items]; [discriminate|]. split; [discriminate|].
    cbn [truthy negb py_iter bind] in H.
    destruct (for_each (amr_row sample_i) (i :: items)); [|discriminate].
    simpl in H. congruence. }
  split; [|split; [|split]].
  - intros df. split; [apply Hforth|].
    intros (report & items & Hfs & Ht & Hne & Hrows).
    rewrite (Hback df report items); auto.
  - intros df H. destruct (Hforth df H) as (report & items & Hfs & Ht & Hne & Hrows).
    rewrite (Hback df report items); auto. split; [|reflexivity].
    intros ->. apply for_each_length in Hrows. destruct items; [congruence|discriminate].
  - intros items df Hrows. split; [eapply for_each_length; eassumption|].
    apply for_each_Forall2. exact Hrows.
  - intros report items item Hfs Ht Hin Hraise.
    destruct (for_each_raises (amr_row sample_i) items item Hin Hraise) as [e He].
    destruct (target_list_Ok _ _ _ Ht) as [ritems ->].
    rewrite (process_amr_markers_object _ _ _ _ Hfs), Ht.
    destruct items as [|i items]; [destruct Hin|].
    cbn [truthy negb py_iter bind]. rewrite He. reflexivity.
Qed.

Lemma microorganism_table_is_all_or_nothing_witness :
  let fs := fs_with "batch1/sample1.1.report.json" report_batch1 in
  exists df,
    fst (process_microorganisms fs "1" "batch") = Some df /\
    length df = 5%nat /\ df <> [] /\
    snd (process_microorganisms fs "1" "batch") = [].
Proof.
  intros fs.
  destruct (microorganism_table_is_all_or_nothing fs "1" "batch") as (_ & Hquiet & _).
  eexists. split; [reflexivity|]. split; [reflexivity|].
  apply Hquiet. reflexivity.
Defined.

Lemma amr_table_is_all_or_nothing_witness :
  let fs := fs_with "batch1/sample1.1.report.json" report_batch1 in
  exists df,
    fst (process_amr_markers fs "1" "batch") = Some df /\
    length df = 2%nat /\ df <> [] /\
    snd (process_amr_markers fs "1" "batch") = [].
Proof.
  intros fs.
  destruct (amr_table_is_all_or_nothing fs "1" "batch") as (_ & Hquiet & _).
  eexists. split; [reflexivity|]. split; [reflexivity|].
  apply Hquiet. reflexivity.
Defined.

(** A report that is an object but has no [targetReport], or whose
    [targetReport] is an object in which the list is absent, [null],
    empty or otherwise falsy, gives no table and one call of
    [logger.warning]; with the threshold of [basicConfig] nothing of it is
    written to the log file. *)
Theorem missing_list_is_a_warning fs sample_i common_prefix ritems :
  fs (report_path sample_i common_prefix) = Loaded (VDict ritems) ->
  (assoc "targetReport" ritems = None \/
   (exists tr, assoc "targetReport" ritems = Some (VDict tr) /\
               truthy (default (VList []) (assoc "microorganisms" tr)) = false) ->
   process_microorganisms fs sample_i common_prefix
     = (None, [Log WARNING (NoMicroorganismData sample_i)]) /\
   log_file (snd (process_microorganisms fs sample_i common_prefix)) = []) /\
  (assoc "targetReport" ritems = None \/
   (exists tr, assoc "targetReport" ritems = Some (VDict tr) /\
               truthy (default (VList []) (assoc "amrMarkers" tr)) = false) ->
   process_amr_markers fs sample_i common_prefix
     = (None, [Log WARNING (NoAmrData sample_i)]) /\
   log_file (snd (process_amr_markers fs sample_i common_prefix)) = []).
Proof.
  intros Hfs.
  assert (Hlist : forall key,
      assoc "targetReport" ritems = None \/
      (exists tr, assoc "targetReport" ritems = Some (VDict tr) /\
                  truthy (default (VList []) (assoc key tr)) = false) ->
      exists v, target_list (VDict ritems) key = Ok v /\ truthy v = false).
  { intros key [Hnone|(tr & Htr & Hfalsy)]; unfold target_list; simpl.
    - rewrite Hnone. simpl. eexists. split; reflexivity.
    - rewrite Htr. simpl. eexists. split; [reflexivity|exact Hfalsy]. }
  split; intros Hcase.
  - destruct (Hlist "microorganisms" Hcase) as (v & Ht & Hfalsy).
    rewrite (process_microorganisms_object _ _ _ _ Hfs), Ht, Hfalsy. simpl.
    split; reflexivity.
  - destruct (Hlist "amrMarkers" Hcase) as (v & Ht & Hfalsy).
    rewrite (process_amr_markers_object _ _ _ _ Hfs), Ht, Hfalsy. simpl.
    split; reflexivity.
Qed.

Lemma missing_list_is_a_warning_witness :
  let doc := VDict [("targetReport", VDict [("microorganisms", VNone)])] in
  let fs := fs_with "batch1/sample1.1.report.json" doc in
  process_microorganisms fs "1" "batch" = (None, [Log WARNING (NoMicroorganismData "1")]) /\
  process_amr_markers fs "1" "batch" = (None, [Log WARNING (NoAmrData "1")]).
Proof.
  intros doc fs.
  destruct (missing_list_is_a_warning fs "1" "batch"
              [("targetReport", VDict [("microorganisms", VNone)])] eq_refl)
    as (Hmo & Hamr).
  split.
  - apply Hmo. right. eexists. split; reflexivity.
  - apply Hamr. right. eexists. split; reflexivity.
Defined.

(** A sample is dropped without any logging call exactly when its report
    file holds the JSON literal [null]: every other way of getting no
    table logs something. *)
Theorem silent_drop_iff_null_document fs sample_i common_prefix :
  (process_microorganisms fs sample_i common_prefix = (None, []) <->
   fs (report_path sample_i common_prefix) = Loaded VNone) /\
  (process_amr_markers fs sample_i common_prefix = (None, []) <->
   fs (report_path sample_i common_prefix) = Loaded VNone).
Proof.
  split; split.
  - unfold process_microorganisms, load_json_report.
    destruct (fs (report_path sample_i common_prefix)) as [| | |doc];
      try (intros H; discriminate).
    destruct doc; try reflexivity; simpl;
      try (intros H; discriminate).
    destruct (target_list _ _) as [trmo|e]; [|intros H; discriminate].
    destruct (negb (truthy trmo)); [intros H; discriminate|].
    destruct (bind _ _); intros H; discriminate.
  - intros H. unfold process_microorganisms, load_json_report. rewrite H. reflexivity.
  - unfold process_amr_markers, load_json_report.
    destruct (fs (report_path sample_i common_prefix)) as [| | |doc];
      try (intros H; discriminate).
    destruct doc; try reflexivity; simpl;
      try (intros H; discriminate).
    destruct (target_list _ _) as [tramr|e]; [|intros H; discriminate].
    destruct (negb (truthy tramr)); [intros H; discriminate|].
    destruct (bind _ _); intros H; discriminate.
  - intros H. unfold process_amr_markers, load_json_report. rewrite H. reflexivity.
Qed.

(** The first associated microorganism of a row: [None] when the entry
    has no [associatedMicroorganisms] or it has no [all]; the first
    element when [all] is a list, which is then not empty. *)
Theorem first_associated_microorganism (sample_i : string)
    (fields : list (string * pyval)) (r : AMR.row) :
  amr_row sample_i (VDict fields) = Ok r ->
  associated_mo (VDict fields) = Ok (AMR.associatedMicroorganisms r) /\
  (assoc "associatedMicroorganisms" fields = None ->
   AMR.associatedMicroorganisms r = VNone) /\
  (forall am, assoc "associatedMicroorganisms" fields = Some (VDict am) ->
              assoc "all" am = None -> AMR.associatedMicroorganisms r = VNone) /\
  (forall am l, assoc "associatedMicroorganisms" fields = Some (VDict am) ->
                assoc "all" am = Some (VList l) ->
                exists rest, l = AMR.associatedMicroorganisms r :: rest) /\
  (forall v, assoc "associatedMicroorganisms" fields = Some v ->
             exists am, v = VDict am).
Proof.
  intros H. unfold amr_row in H. simpl py_get in H. simpl bind at 1 in H.
  destruct (associated_mo (VDict fields)) as [a|e] eqn:Ha; [|discriminate].
  assert (Hr : AMR.associatedMicroorganisms r = a).
  { simpl in H.
    repeat match type of H with
           | bind ?c _ = Ok _ => destruct c; simpl in H; [|discriminate]
           end.
    injection H as <-. reflexivity. }
  rewrite Hr. split; [reflexivity|]. clear H Hr.
  unfold associated_mo in Ha. simpl in Ha. repeat split.
  - intros Hnone. rewrite Hnone in Ha. simpl in Ha. congruence.
  - intros am Ham Hall. rewrite Ham in Ha. simpl in Ha. rewrite Hall in Ha.
    simpl in Ha. congruence.
  - intros am l Ham Hall. rewrite Ham in Ha. simpl in Ha. rewrite Hall in Ha.
    simpl in Ha. destruct l as [|x rest]; [discriminate|].
    injection Ha as <-. eauto.
  - intros v Hv. rewrite Hv in Ha. simpl in Ha.
    destruct v; try discriminate. eauto.
Qed.

Lemma first_associated_microorganism_witness :
  exists r,
    amr_row "1" (VDict [("name", VStr "blaTEM");
                        ("associatedMicroorganisms",
                         VDict [("all", VList [VStr "Escherichia coli";
                                              VStr "Klebsiella pneumoniae"])])]) = Ok r /\
    exists rest,
      [VStr "Escherichia coli"; VStr "Klebsiella pneumoniae"]
        = AMR.associatedMicroorganisms r :: rest.
Proof.
  eexists. split; [reflexivity|].
  destruct (first_associated_microorganism "1"
              [("name", VStr "blaTEM");
               ("associatedMicroorganisms",
                VDict [("all", VList [VStr "Escherichia coli";
                                     VStr "Klebsiella pneumoniae"])])] _ eq_refl)
    as (_ & _ & _ & Hfirst & _).
  eapply Hfirst; reflexivity.
Defined.

(** ** The loop over the samples *)

Lemma fold_process_sample_app fs common_prefix names acc :
  fold_left (process_sample fs common_prefix) names acc =
    (fst (fst acc)
       ++ omap (fun sample_i => fst (process_microorganisms fs sample_i common_prefix)) names,
     snd (fst acc)
       ++ omap (fun sample_i => fst (process_amr_markers fs sample_i common_prefix)) names,
     snd acc
       ++ flat_map (fun sample_i =>
                      snd (process_microorganisms fs sample_i common_prefix)
                      ++ snd (process_amr_markers fs sample_i common_prefix)) names).
Proof.
  revert acc. induction names as [|s names IH]; intros [[mo amr] tr]; simpl.
  - rewrite !app_nil_r. reflexivity.
  - rewrite IH. unfold process_sample.
    destruct (process_microorganisms fs s common_prefix) as [mo_table tr_mo].
    destruct (process_amr_markers fs s common_prefix) as [amr_table tr_amr].
    simpl. destruct mo_table, amr_table; simpl;
      rewrite <- ?app_assoc; simpl; reflexivity.
Qed.

Lemma tables_in_order fs common_prefix names :
  mo_tables fs common_prefix names
    = omap (fun sample_i => fst (process_microorganisms fs sample_i common_prefix)) names /\
  amr_tables fs common_prefix names
    = omap (fun sample_i => fst (process_amr_markers fs sample_i common_prefix)) names.
Proof.
  unfold mo_tables, amr_tables, process_samples.
  rewrite fold_process_sample_app. simpl. split; reflexivity.
Qed.

(** The loop keeps, in discovery order, the tables of the samples that
    gave one, and its log is the logs of the samples one after the other,
    the microorganism extractor before the AMR extractor.  Each extractor
    loads the report for itself, so a sample whose report is missing
    leaves the same [ReportNotFound] error twice. *)
Theorem loop_collects_tables_in_order fs common_prefix names :
  mo_tables fs common_prefix names
    = omap (fun sample_i => fst (process_microorganisms fs sample_i common_prefix)) names /\
  amr_tables fs common_prefix names
    = omap (fun sample_i => fst (process_amr_markers fs sample_i common_prefix)) names /\
  snd (process_samples fs common_prefix names)
    = flat_map (fun sample_i =>
                  snd (process_microorganisms fs sample_i common_prefix)
                  ++ snd (process_amr_markers fs sample_i common_prefix)) names /\
  (forall sample_i,
      fs (report_path sample_i common_prefix) = FileNotFound ->
      snd (process_microorganisms fs sample_i common_prefix)
      ++ snd (process_amr_markers fs sample_i common_prefix)
      = [Log ERROR (ReportNotFound sample_i (report_path sample_i common_prefix));
         Log ERROR (ReportNotFound sample_i (report_path sample_i common_prefix))]).
Proof.
  unfold mo_tables, amr_tables, process_samples.
  rewrite fold_process_sample_app. simpl.
  split; [reflexivity|]. split; [reflexivity|]. split; [reflexivity|].
  intros sample_i Hfs. unfold process_microorganisms, process_amr_markers, load_json_report.
  rewrite Hfs. reflexivity.
Qed.

Lemma loop_collects_tables_in_order_witness :
  let fs := reports env_batch in
  fs (report_path "2" "batch") = FileNotFound /\
  length (mo_tables fs "batch" ["1"; "2"]) = 1%nat /\
  snd (process_samples fs "batch" ["1"; "2"])
    = [Log ERROR (ReportNotFound "2" "batch2/sample2.2.report.json");
       Log ERROR (ReportNotFound "2" "batch2/sample2.2.report.json")].
Proof.
  intros fs. split; [reflexivity|]. split; [reflexivity|].
  destruct (loop_collects_tables_in_order fs "batch" ["1"; "2"]) as (_ & _ & Htr & _).
  rewrite Htr. reflexivity.
Defined.

(** ** The driver *)

Lemma filter_none {A : Type} (f : A -> bool) (l : list A) :
  Forall (fun x => f x = false) l -> List.filter f l = [].
Proof.
  induction 1 as [|x l Hx _ IH]; simpl; [reflexivity|]. rewrite Hx. exact IH.
Qed.

Lemma logs_no_print (tr : list event) :
  Forall (fun ev => is_log ev = true) tr ->
  List.filter is_print tr = [] /\ List.filter is_export tr = [].
Proof.
  intros H. split; apply filter_none; eapply List.Forall_impl; try exact H;
    intros ev Hev; destruct ev; try discriminate; reflexivity.
Qed.

Lemma move_results_no_print (paths : list string) (target_dir : string) :
  List.filter is_print (move_results paths target_dir) = [].
Proof. induction paths as [|p paths IH]; simpl; [reflexivity|exact IH]. Qed.

Lemma fatal_is_not_success : fatal_message <> success_message.
Proof. discriminate. Qed.

Section DriverMore.
Variable natsorted : list string -> list string.
Variable sort_values_desc : list ra_entry -> list ra_entry.

Lemma plot_no_print (df : list (MO.row Z)) (totals : gmap string Z) :
  List.filter is_print (snd (plot_relative_abundance sort_values_desc df totals)) = [].
Proof.
  apply filter_none. apply List.Forall_forall. intros ev Hev.
  apply plot_events in Hev as (s & _ & Hev). unfold plot_sample in Hev.
  destruct (usable_total (totals !! s)); simpl in Hev;
    destruct Hev as [<-|[]]; reflexivity.
Qed.

Lemma report_results_prints (final_mo_df : list (MO.row pyval))
    (final_amr_df : list AMR.row) (tr : list event) :
  report_results sort_values_desc final_mo_df final_amr_df = Some tr ->
  List.filter is_print tr = [Print success_message] /\
  List.filter is_export tr <> [] /\
  In (ToExcel_mo "Microorganisms_table.xlsx" final_mo_df) tr /\
  In (ToExcel_amr "amrMarkers_table.xlsx" final_amr_df) tr /\
  In (Move "Microorganisms_table.xlsx" "Results/Tables") tr /\
  In (Move "amrMarkers_table.xlsx" "Results/Tables") tr /\
  (forall fn df, In (ToExcel_mo fn df) tr ->
                 fn = "Microorganisms_table.xlsx" /\ df = final_mo_df) /\
  (forall fn df, In (ToExcel_amr fn df) tr ->
                 fn = "amrMarkers_table.xlsx" /\ df = final_amr_df).
Proof.
  unfold report_results. destruct (int_frame final_mo_df) as [df|]; [|discriminate].
  pose proof (plot_no_print df (total_reads_dict df)) as Hnp.
  pose proof (plot_events sort_values_desc df (total_reads_dict df)) as Hev.
  destruct (plot_relative_abundance sort_values_desc df (total_reads_dict df))
    as [ra_paths tr_ra].
  simpl in Hnp, Hev. intros H. injection H as <-.
  assert (Hra : forall ev, In ev tr_ra ->
                  (exists fn s bars, ev = SaveBar fn s bars) \/ (exists lv m, ev = Log lv m)).
  { intros ev Hin. apply Hev in Hin as (s & _ & Hin). unfold plot_sample in Hin.
    destruct (usable_total _); simpl in Hin; destruct Hin as [<-|[]]; eauto 6. }
  split.
  { cbn -[move_results]. rewrite List.filter_app, Hnp. cbn -[move_results].
    rewrite List.filter_app, move_results_no_print. reflexivity. }
  split; [simpl; discriminate|].
  split; [left; reflexivity|]. split; [right; left; reflexivity|].
  split.
  { do 4 right. apply in_or_app. right. left. reflexivity. }
  split.
  { do 4 right. apply in_or_app. right. right. left. reflexivity. }
  split.
  - intros fn df' Hin. cbn -[move_results] in Hin. split_in Hin;
      try discriminate; finish_in Hra Hin.
  - intros fn df' Hin. cbn -[move_results] in Hin. split_in Hin;
      try discriminate; finish_in Hra Hin.
Qed.


(** A run in which some sample has microorganisms and no sample has AMR
    markers (or the other way round) exports nothing: the concatenation of
    the empty list raises [ValueError], which the handler of [main]
    reports as a fatal error after the log of the loop. *)
Theorem one_empty_table_is_fatal (env : environment) :
  let sample_names := fst (extract_sample_info natsorted (listing env)) in
  let common_prefix := snd (extract_sample_info natsorted (listing env)) in
  let mo := mo_tables (reports env) common_prefix sample_names in
  let amr := amr_tables (reports env) common_prefix sample_names in
  setup_ok env = true ->
  (mo <> [] /\ amr = []) \/ (mo = [] /\ amr <> []) ->
  main natsorted sort_values_desc env =
    Some (Log INFO DirsReady
          :: snd (process_samples (reports env) common_prefix sample_names)
          ++ [Log CRITICAL (FatalError ValueError); Print fatal_message]) /\
  forall tr, main natsorted sort_values_desc env = Some tr ->
             List.filter is_export tr = [] /\
             In (Print fatal_message) tr /\
             ~ In (Print success_message) tr.
Proof.
  intros sample_names common_prefix mo amr Hsetup Hone.
  assert (Hmain : main natsorted sort_values_desc env =
    Some (Log INFO DirsReady
          :: snd (process_samples (reports env) common_prefix sample_names)
          ++ [Log CRITICAL (FatalError ValueError); Print fatal_message])).
  { unfold main, main_try. rewrite Hsetup. simpl negb. cbv iota.
    subst mo amr sample_names common_prefix. unfold mo_tables, amr_tables in Hone.
    destruct (extract_sample_info natsorted (listing env)) as [names prefix].
    simpl fst in *; simpl snd in *.
    destruct names as [|n names]; cbn [is_nil].
    { exfalso. destruct Hone as [[H _]|[_ H]]; apply H; reflexivity. }
    destruct (process_samples (reports env) prefix (n :: names)) as [[mo amr] trl].
    simpl fst in *; simpl snd in *.
    destruct Hone as [[Hmo ->]|[-> Hamr]].
    - destruct mo as [|m mo]; [congruence|]. reflexivity.
    - destruct amr as [|a amr]; [congruence|]. reflexivity. }
  split; [exact Hmain|]. intros tr Htr. rewrite Hmain in Htr. injection Htr as <-.
  pose proof (process_samples_logs (reports env) common_prefix sample_names) as Hlogs.
  destruct (logs_no_print _ Hlogs) as [Hnp Hne].
  split; [|split].
  - simpl. rewrite List.filter_app, Hne. reflexivity.
  - right. apply in_or_app. right. right. left. reflexivity.
  - intros [Hin|Hin]; [discriminate|].
    apply in_app_or in Hin as [Hin|Hin].
    + rewrite List.Forall_forall in Hlogs. specialize (Hlogs _ Hin). discriminate.
    + simpl in Hin. destruct Hin as [Hin|[Hin|[]]]; discriminate.
Qed.
End DriverMore.

(** ** The charts of the calculator *)

Lemma unique_from_NoDup (seen l : list string) : List.NoDup (unique_from seen l).
Proof.
  revert seen. induction l as [|x l IH]; intros seen; simpl; [constructor|].
  destruct (existsb (String.eqb x) seen) eqn:Hx; [apply IH|].
  constructor; [|apply IH].
  intros Hin. apply unique_from_In in Hin as [_ Hnot]. simpl in Hnot.
  rewrite String.eqb_refl in Hnot. discriminate.
Qed.

Lemma string_app_inv_tail (a b t : string) : a +:+ t = b +:+ t -> a = b.
Proof.
  revert b. induction a as [|c a IH]; intros b H.
  - destruct b as [|d b]; [reflexivity|].
    apply (f_equal String.length) in H. rewrite !string_app_length in H.
    simpl in H. lia.
  - destruct b as [|d b].
    + apply (f_equal String.length) in H. rewrite !string_app_length in H.
      simpl in H. lia.
    + change (String c (a +:+ t) = String d (b +:+ t)) in H.
      injection H as -> H. f_equal. apply IH. exact H.
Qed.

Lemma bar_filename_inj (s s' : string) : bar_filename s = bar_filename s' -> s = s'.
Proof.
  unfold bar_filename. intros H.
  assert (H' : s +:+ ".jpg" = s' +:+ ".jpg").
  { simpl in H. repeat (injection H as H). exact H. }
  eapply string_app_inv_tail. exact H'.
Qed.

Lemma saved_bars_app (t1 t2 : list event) :
  saved_bars (t1 ++ t2) = saved_bars t1 ++ saved_bars t2.
Proof. unfold saved_bars. apply omap_app. Qed.

Section ChartsFacts.
Variable sort_values_desc : list ra_entry -> list ra_entry.

Lemma plot_sample_paths (dfp : list (MO.row Z)) (totals : gmap string Z) (s : string) :
  fst (plot_sample sort_values_desc dfp totals s)
    = saved_bars (snd (plot_sample sort_values_desc dfp totals s)) /\
  fst (plot_sample sort_values_desc dfp totals s)
    = match usable_total (totals !! s) with
      | Some _ => [bar_filename s]
      | None => []
      end.
Proof.
  unfold plot_sample. destruct (usable_total (totals !! s)); split; reflexivity.
Qed.

Lemma plot_paths_are_saved_bars (df : list (MO.row Z)) (totals : gmap string Z) :
  fst (plot_relative_abundance sort_values_desc df totals)
    = saved_bars (snd (plot_relative_abundance sort_values_desc df totals)).
Proof.
  unfold plot_relative_abundance. simpl.
  induction (unique (map MO.Sample (present_rows df))) as [|s samples IH];
    simpl; [reflexivity|].
  rewrite saved_bars_app, IH.
  rewrite (proj1 (plot_sample_paths (present_rows df) totals s)). reflexivity.
Qed.

End ChartsFacts.


(** ** Percentages *)

Lemma sum_counts_nonneg (df : list (MO.row Z)) :
  Forall (fun r => 0 <= MO.alignedReadCount r) df -> 0 <= sum_counts df.
Proof.
  induction 1 as [|r df Hr _ IH]; simpl; lia.
Qed.

Lemma count_le_sum (df : list (MO.row Z)) (r : MO.row Z) :
  Forall (fun r => 0 <= MO.alignedReadCount r) df ->
  In r df -> MO.alignedReadCount r <= sum_counts df.
Proof.
  induction 1 as [|x df Hx Hdf IH]; intros Hin; [destruct Hin|].
  simpl. pose proof (sum_counts_nonneg df Hdf).
  destruct Hin as [->|Hin]; [lia|]. specialize (IH Hin). lia.
Qed.

Lemma rows_of_sample_nonneg (s : string) (df : list (MO.row Z)) :
  Forall (fun r => 0 <= MO.alignedReadCount r) df ->
  Forall (fun r => 0 <= MO.alignedReadCount r) (rows_of_sample s df).
Proof.
  intros H. apply List.Forall_forall. intros r Hr.
  apply rows_of_sample_In in Hr as [Hr _].
  rewrite List.Forall_forall in H. auto.
Qed.

Lemma percentage_bounds (a t : Z) :
  0 <= a -> a <= t -> 0 < t ->
  (0 <= inject_Z a / inject_Z t * 100 /\ inject_Z a / inject_Z t * 100 <= 100)%Q.
Proof.
  intros Ha Hat Ht.
  assert (Ht' : (0 < inject_Z t)%Q) by (unfold Qlt; simpl; lia).
  assert (Ha' : (0 <= inject_Z a)%Q) by (unfold Qle; simpl; lia).
  assert (Hat' : (inject_Z a <= inject_Z t)%Q) by (unfold Qle; simpl; lia).
  assert (H0 : (0 <= inject_Z a / inject_Z t)%Q).
  { apply Qle_shift_div_l; [exact Ht'|]. rewrite Qmult_0_l. exact Ha'. }
  assert (H1 : (inject_Z a / inject_Z t <= 1)%Q).
  { apply Qle_shift_div_r; [exact Ht'|]. rewrite Qmult_1_l. exact Hat'. }
  split.
  - apply Qmult_le_0_compat; [exact H0|discriminate].
  - change (inject_Z a / inject_Z t * 100 <= 1 * 100)%Q.
    apply Qmult_le_compat_r; [exact H1|discriminate].
Qed.

Lemma sum_percentages_perm (l l' : list ra_entry) :
  Permutation l l' -> (sum_percentages l == sum_percentages l')%Q.
Proof.
  induction 1 as [|x l l' _ IH|x y l|l l' l'' _ IH1 _ IH2]; simpl.
  - reflexivity.
  - rewrite IH. reflexivity.
  - ring.
  - rewrite IH1. exact IH2.
Qed.

Lemma sum_percentages_rows (t : Z) (rows : list (MO.row Z)) :
  (sum_percentages (map (with_relative_abundance t) rows)
   == 100 * inject_Z (sum_counts rows) / inject_Z t)%Q.
Proof.
  induction rows as [|r rows IH]; simpl.
  - unfold Qdiv. ring.
  - rewrite IH, inject_Z_plus. unfold Qdiv. ring.
Qed.

Section PercentageFacts.
Variable sort_values_desc : list ra_entry -> list ra_entry.
Hypothesis sort_rearranges : rearranges sort_values_desc.

End PercentageFacts.


(** ** Whole runs *)

Lemma saved_bars_In (tr : list event) (fn s : string) (bars : list ra_entry) :
  In (SaveBar fn s bars) tr -> In fn (saved_bars tr).
Proof.
  induction tr as [|ev tr IH]; intros Hin; [destruct Hin|].
  destruct Hin as [->|Hin].
  - left. reflexivity.
  - unfold saved_bars in *. simpl. destruct ev; simpl; auto.
Qed.

Section RunFacts.
Variable natsorted : list string -> list string.
Variable sort_values_desc : list ra_entry -> list ra_entry.
Hypothesis natsorted_perm : forall l, Permutation (natsorted l) l.

Lemma report_results_moves_charts (final_mo_df : list (MO.row pyval))
    (final_amr_df : list AMR.row) (tr : list event) :
  report_results sort_values_desc final_mo_df final_amr_df = Some tr ->
  (forall fn s bars, In (SaveBar fn s bars) tr -> In (Move fn "Results/Plots") tr) /\
  (forall fn, In (SaveCounts fn) tr -> In (Move fn "Results/Plots") tr) /\
  last tr = Some (Print success_message).
Proof.
  unfold report_results. destruct (int_frame final_mo_df) as [df|]; [|discriminate].
  pose proof (plot_paths_are_saved_bars sort_values_desc df (total_reads_dict df))
    as Hpaths.
  pose proof (plot_events sort_values_desc df (total_reads_dict df)) as Hev.
  destruct (plot_relative_abundance sort_values_desc df (total_reads_dict df))
    as [ra_paths tr_ra].
  simpl in Hpaths, Hev. intros H. injection H as <-.
  assert (Hmoved : forall fn, In fn ra_paths ->
            In (Move fn "Results/Plots")
               (move_results ra_paths PLOTS_DIR
                ++ [Log INFO ProcessingComplete; Print success_message])).
  { intros fn Hfn. apply in_or_app. left. unfold move_results.
    apply (in_map (fun path => Move path PLOTS_DIR)). exact Hfn. }
  split; [|split].
  - intros fn s bars Hin. cbn -[move_results] in Hin. split_in Hin; try discriminate.
    + cbn -[move_results]. do 4 right. apply in_or_app. right. do 4 right.
      apply Hmoved. rewrite Hpaths. eapply saved_bars_In. exact Hin.
    + unfold move_results in Hin. apply in_map_iff in Hin as (? & Heq & _). discriminate.
  - intros fn Hin. cbn -[move_results] in Hin. split_in Hin; try discriminate.
    + injection Hin as <-. cbn -[move_results]. do 4 right. apply in_or_app. right.
      do 2 right. left. reflexivity.
    + injection Hin as <-. cbn -[move_results]. do 4 right. apply in_or_app. right.
      do 3 right. left. reflexivity.
    + exfalso. apply Hev in Hin as (s & _ & Hin). unfold plot_sample in Hin.
      destruct (usable_total _); simpl in Hin; destruct Hin as [Hin|[]]; discriminate.
    + unfold move_results in Hin. apply in_map_iff in Hin as (? & Heq & _). discriminate.
  - cbn -[move_results].
    rewrite !app_comm_cons, !app_assoc.
    change [Log INFO ProcessingComplete; Print success_message]
      with ([Log INFO ProcessingComplete] ++ [Print success_message]).
    rewrite app_assoc. apply last_snoc.
Qed.

(** With no sample directory the run ends after a warning: discovery
    returns no identifier and the empty prefix, nothing is read, exported
    or printed, and with the threshold of [basicConfig] the log file
    stays empty.  Discovery returns no identifier only then. *)
Theorem no_sample_directory_ends_the_run (env : environment) :
  (fst (extract_sample_info natsorted (listing env)) = [] <->
   sample_dirs (listing env) = []) /\
  (sample_dirs (listing env) = [] ->
   extract_sample_info natsorted (listing env) = ([], "") /\
   (setup_ok env = true ->
    main natsorted sort_values_desc env
      = Some [Log INFO DirsReady; Log WARNING NoSampleDirs] /\
    log_file [Log INFO DirsReady; Log WARNING NoSampleDirs] = [])).
Proof.
  assert (Hnil : sample_dirs (listing env) = [] ->
                 extract_sample_info natsorted (listing env) = ([], "")).
  { intros H. unfold extract_sample_info. rewrite H.
    assert (Hs : natsorted [] = []).
    { apply Permutation_nil. symmetry. apply natsorted_perm. }
    rewrite Hs. reflexivity. }
  split; [split|].
  - intros H.
    pose proof (extract_sample_info_dirs natsorted (listing env)) as Hd.
    rewrite H in Hd. simpl in Hd.
    apply Permutation_nil. rewrite Hd. apply natsorted_perm.
  - intros H. rewrite (Hnil H). reflexivity.
  - intros H. split; [apply Hnil; exact H|]. intros Hsetup.
    split; [|reflexivity].
    unfold main, main_try. rewrite Hsetup, (Hnil H). reflexivity.
Qed.

End RunFacts.

(** ** The properties on the example runs *)

Lemma discovery_returns_the_sample_directories_witness :
  map (fun sample_i => "batch" +:+ sample_i) ["1"; "2"]
    = natsorted_ref (sample_dirs (listing env_batch)) /\
  (In "Results" (map (fun sample_i => "batch" +:+ sample_i) ["1"; "2"]) <->
   In ("Results", true) (listing env_batch) /\ String.prefix "Results" "Results" = false).
Proof.
  destruct (discovery_returns_the_sample_directories natsorted_ref natsorted_ref_perm
              (listing env_batch)) as (Hdirs & _ & Hiff & _).
  split; [exact Hdirs|exact (Hiff "Results")].
Defined.

Lemma distinct_directories_give_distinct_labels_witness :
  List.NoDup (map fst (listing env_batch)) /\
  List.NoDup (map sample_label ["1"; "2"]).
Proof.
  assert (Hnd : List.NoDup (map fst (listing env_batch))).
  { simpl. repeat constructor; simpl; intuition discriminate. }
  split; [exact Hnd|].
  exact (proj2 (distinct_directories_give_distinct_labels natsorted_ref
                  natsorted_ref_perm (listing env_batch) Hnd)).
Defined.

Lemma identifiers_share_no_first_character_witness :
  fst (extract_sample_info natsorted_ref
         [("sample1", true); ("sample10", true); ("sample11", true)])
    = [""; "0"; "1"] /\
  ~ Forall (fun sample_i => exists r, sample_i = String "1" r) [""; "0"; "1"].
Proof.
  split; [reflexivity|].
  apply (identifiers_share_no_first_character natsorted_ref
           [("sample1", true); ("sample10", true); ("sample11", true)] "1").
  discriminate.
Defined.


Lemma one_empty_table_is_fatal_witness :
  mo_tables (reports env_no_amr) "batch" ["1"; "2"] <> [] /\
  amr_tables (reports env_no_amr) "batch" ["1"; "2"] = [] /\
  main natsorted_ref sort_values_stable env_no_amr =
    Some [Log INFO DirsReady;
          Log WARNING (NoAmrData "1");
          Log ERROR (ReportNotFound "2" "batch2/sample2.2.report.json");
          Log ERROR (ReportNotFound "2" "batch2/sample2.2.report.json");
          Log CRITICAL (FatalError ValueError);
          Print fatal_message].
Proof.
  split; [discriminate|]. split; [reflexivity|].
  destruct (one_empty_table_is_fatal natsorted_ref sort_values_stable env_no_amr)
    as [Hmain _].
  - reflexivity.
  - left. split; [discriminate|reflexivity].
  - exact Hmain.
Defined.

Lemma no_sample_directory_ends_the_run_witness :
  sample_dirs (listing env_no_samples) = [] /\
  main natsorted_ref sort_values_stable env_no_samples
    = Some [Log INFO DirsReady; Log WARNING NoSampleDirs].
Proof.
  split; [reflexivity|].
  destruct (no_sample_directory_ends_the_run natsorted_ref sort_values_stable
              natsorted_ref_perm env_no_samples) as (_ & Hrun).
  destruct (Hrun eq_refl) as (_ & Hmain). exact (proj1 (Hmain eq_refl)).
Defined.


Lemma silent_drop_iff_null_document_witness :
  process_microorganisms (fs_with "batch1/sample1.1.report.json" VNone) "1" "batch"
    = (None, []) /\
  process_amr_markers (fs_with "batch1/sample1.1.report.json" VNone) "1" "batch"
    = (None, []).
Proof.
  destruct (silent_drop_iff_null_document
              (fs_with "batch1/sample1.1.report.json" VNone) "1" "batch") as [Hmo Hamr].
  split; [apply Hmo|apply Hamr]; reflexivity.
Defined.
